(** * Stock dashboard: the filter and aggregate pipeline

    A shallow embedding of the two dashboard scripts of the repository,

    - [frontend/js/dashboard.js]  (module [Dashboard]), and
    - the second, unnamed variant of the same script (module [ApiDashboard]; it fetches [/api/stocks]),

    restricted to what decides the loaded, filtered and aggregated data:
    [loadData], the [input] handler of the search box, [applyFilters] and
    [renderStats], and of the cards what [getScoreClass] and
    [renderStockGrid] compute for them.  The markup itself, timestamps and
    the properties of a record that only the markup shows (prices, catalyst,
    analysis) are left out.

    Conventions.
    - A JavaScript string is a [string] of ASCII characters, on which
      [toLowerCase] works character by character.  Statements that depend on
      this say so in a hypothesis.
    - A JavaScript number is [NaN], an infinity or an exact rational.  For
      integer scores of [[0, 100]] and any array the sum of the scores is
      exact in doubles, and the rounding of the quotient by the length is
      too small to move it onto or across a half-integer, so that
      [Math.round] gives what it gives on the exact quotient.  Statements
      about the value of an average carry this range as a hypothesis.
    - A property that a record may lack is an [option]; [None] is JavaScript's
      [undefined].
    - A thrown exception is the [Throw] branch of [completion]. *)

From Stdlib Require Import ZArith QArith Qround List String Ascii Bool Lia.
Import ListNotations.

Local Open Scope Z_scope.
Local Open Scope string_scope.

Set Implicit Arguments.

(** ** JavaScript strings *)

Module JSString.

(** [c] is one of 'A'..'Z'. *)
Definition is_upper (c : ascii) : bool :=
  let n := nat_of_ascii c in (65 <=? n)%nat && (n <=? 90)%nat.

Definition lower_char (c : ascii) : ascii :=
  if is_upper c then ascii_of_nat (nat_of_ascii c + 32) else c.

(** [String.prototype.toLowerCase], as it acts on ASCII strings. *)
Fixpoint toLowerCase (s : string) : string :=
  match s with
  | EmptyString => EmptyString
  | String c rest => String (lower_char c) (toLowerCase rest)
  end.

(** [s.startsWith(t)]. *)
Fixpoint startsWith (s t : string) : bool :=
  match t, s with
  | EmptyString, _ => true
  | String _ _, EmptyString => false
  | String b t', String a s' => Ascii.eqb a b && startsWith s' t'
  end.

(** [String.prototype.includes]: [t] occurs in [s] at some position. *)
Fixpoint includes (s t : string) : bool :=
  startsWith s t ||
  match s with
  | EmptyString => false
  | String _ s' => includes s' t
  end.

(** Truthiness of a string: only the empty string is falsy. *)
Definition truthy (s : string) : bool :=
  match s with
  | EmptyString => false
  | String _ _ => true
  end.

(** Some character of [s] is an upper-case letter. *)
Fixpoint has_upper (s : string) : bool :=
  match s with
  | EmptyString => false
  | String c rest => is_upper c || has_upper rest
  end.

(** The character [c] occurs in [s]. *)
Fixpoint occurs (c : ascii) (s : string) : bool :=
  match s with
  | EmptyString => false
  | String a rest => Ascii.eqb a c || occurs c rest
  end.

End JSString.

(** ** JavaScript numbers *)

Module JSNumber.

Inductive number : Type :=
| NaN
| Inf (positive : bool)
| Fin (q : Q).

Definition of_Z (z : Z) : number := Fin (inject_Z z).

(** Sign of a rational as seen by a division by zero. *)
Definition sign_of (q : Q) : comparison := (0 ?= q)%Q.

(** [a + b] on numbers. *)
Definition add (a b : number) : number :=
  match a, b with
  | NaN, _ | _, NaN => NaN
  | Inf p, Inf p' => if Bool.eqb p p' then Inf p else NaN
  | Inf p, Fin _ | Fin _, Inf p => Inf p
  | Fin x, Fin y => Fin (x + y)
  end.

(** [a / b] on numbers. *)
Definition div (a b : number) : number :=
  match a, b with
  | NaN, _ | _, NaN => NaN
  | Inf _, Inf _ => NaN
  | Inf p, Fin y => Inf (if Qle_bool 0 y then p else negb p)
  | Fin _, Inf _ => Fin 0
  | Fin x, Fin y =>
      if Qeq_bool y 0 then
        match sign_of x with
        | Eq => NaN
        | Lt => Inf true
        | Gt => Inf false
        end
      else Fin (x / y)
  end.

(** [a >= b] on numbers: false as soon as one side is [NaN]. *)
Definition ge (a b : number) : bool :=
  match a, b with
  | NaN, _ | _, NaN => false
  | Inf p, Inf p' => p || negb p'
  | Inf p, Fin _ => p
  | Fin _, Inf p => negb p
  | Fin x, Fin y => Qle_bool y x
  end.

(** [Math.round]: the nearest integer, a tie going to the larger one,
    that is [floor (x + 1/2)]. *)
Definition Math_round (a : number) : number :=
  match a with
  | Fin x => of_Z (Qfloor (x + (1 # 2)))
  | other => other
  end.

(** The number is an integer (in particular neither [NaN] nor infinite). *)
Definition is_integer (a : number) : Prop :=
  exists z : Z, a = of_Z z.

(** [ToNumber] of a property that may be [undefined]. *)
Definition of_property (p : option Z) : number :=
  match p with
  | None => NaN
  | Some z => of_Z z
  end.

End JSNumber.

(** ** Exceptions *)

Inductive exn : Type :=
| TypeError (message : string)
| SyntaxError (message : string)
| Error (message : string).

(** The outcome of running a piece of script: a value, or a thrown
    exception. *)
Inductive completion (A : Type) : Type :=
| Ok (a : A)
| Throw (e : exn).

Arguments Ok {A} a.
Arguments Throw {A} e.

Definition bind {A B : Type} (c : completion A) (k : A -> completion B)
  : completion B :=
  match c with
  | Ok a => k a
  | Throw e => Throw e
  end.

Notation "x <- c ;; k" := (bind c (fun x => k))
  (at level 61, c at next level, right associativity).

Definition cmap {A B : Type} (f : A -> B) (c : completion A) : completion B :=
  x <- c ;; Ok (f x).

(** [Array.prototype.filter] with a callback that may throw: the elements
    are visited from left to right and the first exception aborts the
    call. *)
Fixpoint filterM {A : Type} (f : A -> completion bool) (l : list A)
  : completion (list A) :=
  match l with
  | [] => Ok []
  | x :: rest =>
      keep <- f x ;;
      kept <- filterM f rest ;;
      Ok (if keep then x :: kept else kept)
  end.

(** ** Data model *)

(** A stock record, with the properties that filtering and aggregation
    read.  [name] is what the sample records carry, [company_name] what the
    generated data file carries. *)
Record stock : Type := {
  ticker : string;
  name : option string;
  company_name : option string;
  region : string;
  confidence_score : option Z
}.

(** The fields of a [StockDashboard] instance. *)
Record dashboard : Type := {
  stocks : list stock;
  filteredStocks : list stock;
  currentRegion : string;
  searchTerm : string
}.

(** The state set up by the constructor. *)
Definition constructed : dashboard :=
  {| stocks := []; filteredStocks := [];
     currentRegion := "all"; searchTerm := "" |}.

(** The text written into the three elements of the statistics panel. *)
Record stats : Type := {
  total_stocks : nat;
  high_confidence : nat;
  avg_score : JSNumber.number
}.

(** ** Aggregation: [renderStats], the same in both scripts *)

Module Stats.
Import JSNumber.

(** One evaluation of the [/] operator. *)
Record division : Type := { dividend : number; divisor : number }.

(** A value together with the divisions evaluated to obtain it. *)
Definition traced (A : Type) : Type := (A * list division)%type.

Definition pure {A : Type} (a : A) : traced A := (a, []).

Definition divide (a b : number) : traced number :=
  (div a b, [{| dividend := a; divisor := b |}]).

Definition then_ {A B : Type} (c : traced A) (k : A -> traced B) : traced B :=
  let (a, log) := c in
  let (b, log') := k a in (b, (log ++ log')%list).

(** [s.confidence_score >= 70] *)
Definition isHighConfidence (s : stock) : bool :=
  ge (of_property (confidence_score s)) (of_Z 70).

(** [list.reduce((sum, s) => sum + s.confidence_score, 0)] *)
Definition scoreSum (l : list stock) : number :=
  fold_left (fun sum s => add sum (of_property (confidence_score s)))
            l (of_Z 0).

(** [totalStocks > 0 ? Math.round(sum / totalStocks) : 0] *)
Definition avgScore (filteredStocks : list stock) : traced number :=
  let totalStocks := List.length filteredStocks in
  if (0 <? totalStocks)%nat then
    then_ (divide (scoreSum filteredStocks) (of_Z (Z.of_nat totalStocks)))
          (fun quotient => pure (Math_round quotient))
  else pure (of_Z 0).

Definition renderStats (filteredStocks : list stock) : stats :=
  {| total_stocks := List.length filteredStocks;
     high_confidence := List.length (filter isHighConfidence filteredStocks);
     avg_score := fst (avgScore filteredStocks) |}.

End Stats.

(** ** What [fetch] and [response.json()] can produce *)

(** [response.json()]: the body is not JSON, or it parses to [data]. *)
Inductive body (P : Type) : Type :=
| Unparsable
| Parsed (data : P).

Arguments Unparsable {P}.
Arguments Parsed {P} data.

(** [fetch(url)]: the promise rejects, or a response arrives whose [ok] flag
    tells whether the status is a success. *)
Inductive fetched (P : Type) : Type :=
| NetworkError
| Response (ok : bool) (content : body P).

Arguments NetworkError {P}.
Arguments Response {P} ok content.

Definition set_stocks (d : dashboard) (l : list stock) : dashboard :=
  {| stocks := l; filteredStocks := filteredStocks d;
     currentRegion := currentRegion d; searchTerm := searchTerm d |}.

Definition set_filteredStocks (d : dashboard) (l : list stock) : dashboard :=
  {| stocks := stocks d; filteredStocks := l;
     currentRegion := currentRegion d; searchTerm := searchTerm d |}.

Definition set_currentRegion (d : dashboard) (r : string) : dashboard :=
  {| stocks := stocks d; filteredStocks := filteredStocks d;
     currentRegion := r; searchTerm := searchTerm d |}.

Definition set_searchTerm (d : dashboard) (t : string) : dashboard :=
  {| stocks := stocks d; filteredStocks := filteredStocks d;
     currentRegion := currentRegion d; searchTerm := t |}.

(** What [loadData] leaves behind when it returns.  Either [this.stocks] is
    an array of records, and the dashboard is [d]; or [this.stocks] is the
    string [s], which the spread turns into the array of its characters for
    [this.filteredStocks].  [warned] tells whether the banner is shown. *)
Inductive loaded : Type :=
| Records (d : dashboard) (warned : bool)
| Characters (s : string) (warned : bool).

(** ** [frontend/js/dashboard.js] *)

Module Dashboard.
Import JSString.

(** [SAMPLE_DATA.stocks] *)
Definition SAMPLE_DATA_stocks : list stock :=
  [ {| ticker := "AAPL"; name := Some "Apple Inc."; company_name := None;
       region := "US"; confidence_score := Some 82 |} ].

(** What the [stocks] property of the parsed data reads as: [undefined]
    when there is none, or a JSON value.  Of an object only the outcome of
    the test [length > 0] on its [length] property is kept, since that is
    all [loadData] looks at; the elements of an array are records. *)
Inductive stocks_property : Type :=
| Absent
| Null
| Boolean (b : bool)
| Number (q : Q)
| Text (s : string)
| Array (l : list stock)
| Object (length_gt_0 : bool).

(** The parsed data file: [null], on which reading a property throws, or
    any other value, with what its [stocks] property reads as. *)
Inductive payload : Type :=
| JsonNull
| JsonObject (stocks_of : stocks_property).

(** Truthiness of [data.stocks]. *)
Definition truthy_stocks (v : stocks_property) : bool :=
  match v with
  | Absent | Null => false
  | Boolean b => b
  | Number q => negb (Qeq_bool q 0)
  | Text s => truthy s
  | Array _ | Object _ => true
  end.

(** [data.stocks.length > 0]; a boolean and a number have no [length]. *)
Definition length_positive (v : stocks_property) : bool :=
  match v with
  | Text s => (0 <? String.length s)%nat
  | Array l => (0 <? List.length l)%nat
  | Object length_gt_0 => length_gt_0
  | Absent | Null | Boolean _ | Number _ => false
  end.

(** The [try] block of [loadData]: what is assigned to [this.stocks]. *)
Definition tryLoad (r : fetched payload) : completion stocks_property :=
  match r with
  | NetworkError => Throw (TypeError "Failed to fetch")
  | Response true Unparsable => Throw (SyntaxError "Unexpected token")
  | Response true (Parsed JsonNull) =>
      Throw (TypeError "Cannot read properties of null")
  | Response true (Parsed (JsonObject data_stocks)) =>
      if truthy_stocks data_stocks && length_positive data_stocks
      then Ok data_stocks
      else Throw (Error "No stocks in data")
  | Response false _ => Throw (Error "Failed to load data file")
  end.

(** [loadData]: in the [catch] block the sample records are assigned and the
    banner is shown; the spread [[...this.stocks]] comes after the [try]
    statement and throws on a value that is not iterable. *)
Definition loadData (r : fetched payload) (d : dashboard)
  : completion loaded :=
  let (assigned, warned) :=
    match tryLoad r with
    | Ok data_stocks => (data_stocks, false)
    | Throw _ => (Array SAMPLE_DATA_stocks, true)
    end in
  match assigned with
  | Array l => Ok (Records (set_filteredStocks (set_stocks d l) l) warned)
  | Text s => Ok (Characters s warned)
  | Absent | Null | Boolean _ | Number _ | Object _ =>
      Throw (TypeError "this.stocks is not iterable")
  end.

Definition regionMatch (d : dashboard) (s : stock) : bool :=
  String.eqb (currentRegion d) "all" ||
  String.eqb (region s) (currentRegion d).

Definition searchMatch (d : dashboard) (s : stock) : bool :=
  negb (truthy (searchTerm d)) ||
  includes (toLowerCase (ticker s)) (searchTerm d) ||
  match company_name s with
  | Some n => truthy n && includes (toLowerCase n) (searchTerm d)
  | None => false
  end.

Definition render (d : dashboard) : stats :=
  Stats.renderStats (filteredStocks d).

(** [applyFilters]: the new state and the statistics it renders. *)
Definition applyFilters (d : dashboard) : dashboard * stats :=
  let d' :=
    set_filteredStocks d
      (filter (fun s => regionMatch d s && searchMatch d s) (stocks d)) in
  (d', render d').

(** The [click] handler of a region button. *)
Definition onRegionClick (data_region : string) (d : dashboard)
  : dashboard * stats :=
  applyFilters (set_currentRegion d data_region).

(** The [input] handler of the search box. *)
Definition onSearchInput (value : string) (d : dashboard)
  : dashboard * stats :=
  applyFilters (set_searchTerm d (toLowerCase value)).

End Dashboard.

(** ** The variant that fetches [/api/stocks] *)

Module ApiDashboard.
Import JSString.

(** [SAMPLE_DATA.stocks] *)
Definition SAMPLE_DATA_stocks : list stock :=
  [ {| ticker := "AAPL"; name := Some "Apple Inc."; company_name := None;
       region := "US"; confidence_score := Some 82 |};
    {| ticker := "MSFT"; name := Some "Microsoft Corporation";
       company_name := None;
       region := "US"; confidence_score := Some 76 |};
    {| ticker := "TSCO.L"; name := Some "Tesco PLC"; company_name := None;
       region := "UK"; confidence_score := Some 68 |};
    {| ticker := "AIR.PA"; name := Some "Airbus SE"; company_name := None;
       region := "EU"; confidence_score := Some 71 |} ].

(** The parsed response: an array of records, a string, or a value that
    cannot be spread ([null], a number, a boolean, an object). *)
Inductive payload : Type :=
| JsonArray (l : list stock)
| JsonString (s : string)
| NotIterable.

(** The [try] block of [loadData]: what is assigned to [this.stocks]. *)
Definition tryLoad (r : fetched payload) : completion payload :=
  match r with
  | NetworkError => Throw (TypeError "Failed to fetch")
  | Response true Unparsable => Throw (SyntaxError "Unexpected token")
  | Response true (Parsed data) => Ok data
  | Response false _ => Throw (Error "API not available")
  end.

(** [loadData]: what it leaves behind and whether the warning banner was
    shown; the spread [[...this.stocks]] is outside the [try] block. *)
Definition loadData (r : fetched payload) (d : dashboard)
  : completion loaded :=
  let (assigned, warned) :=
    match tryLoad r with
    | Ok data => (data, false)
    | Throw _ => (JsonArray SAMPLE_DATA_stocks, true)
    end in
  match assigned with
  | JsonArray l => Ok (Records (set_filteredStocks (set_stocks d l) l) warned)
  | JsonString s => Ok (Characters s warned)
  | NotIterable => Throw (TypeError "this.stocks is not iterable")
  end.

Definition regionMatch (d : dashboard) (s : stock) : bool :=
  String.eqb (currentRegion d) "all" ||
  String.eqb (region s) (currentRegion d).

(** The last operand reads [stock.name.toLowerCase], which throws when
    [stock.name] is [undefined]; it is evaluated only when the operands
    before it are false. *)
Definition searchMatch (d : dashboard) (s : stock) : completion bool :=
  if negb (truthy (searchTerm d)) then Ok true
  else if includes (toLowerCase (ticker s)) (searchTerm d) then Ok true
  else match name s with
       | Some n => Ok (includes (toLowerCase n) (searchTerm d))
       | None =>
           Throw (TypeError "Cannot read properties of undefined")
       end.

Definition keeps (d : dashboard) (s : stock) : completion bool :=
  matched <- searchMatch d s ;;
  Ok (regionMatch d s && matched).

Definition render (d : dashboard) : stats :=
  Stats.renderStats (filteredStocks d).

(** [applyFilters]: the new state and the statistics it renders, or the
    exception of the callback, in which case nothing was assigned. *)
Definition applyFilters (d : dashboard) : completion (dashboard * stats) :=
  kept <- filterM (keeps d) (stocks d) ;;
  let d' := set_filteredStocks d kept in
  Ok (d', render d').

Definition onRegionClick (data_region : string) (d : dashboard)
  : completion (dashboard * stats) :=
  applyFilters (set_currentRegion d data_region).

Definition onSearchInput (value : string) (d : dashboard)
  : completion (dashboard * stats) :=
  applyFilters (set_searchTerm d (toLowerCase value)).

End ApiDashboard.

(** ** Vocabulary of the specification *)

(** [kept] is [l] with some elements dropped: nothing added, nothing
    reordered. *)
Inductive subsequence {A : Type} : list A -> list A -> Prop :=
| subsequence_nil : subsequence [] []
| subsequence_keep x kept l :
    subsequence kept l -> subsequence (x :: kept) (x :: l)
| subsequence_drop x kept l :
    subsequence kept l -> subsequence kept (x :: l).

Module SpecWords.
Import JSNumber.

(** Round to the nearest integer, a tie going to the even neighbour. *)
Definition round_half_even (q : Q) : Z :=
  let f := Qfloor q in
  match (q - inject_Z f ?= 1 # 2)%Q with
  | Lt => f
  | Gt => f + 1
  | Eq => if Z.even f then f else f + 1
  end.

(** Round to the nearest integer, a tie going to the larger neighbour. *)
Definition round_half_up (q : Q) : Z :=
  let f := Qfloor q in
  match (q - inject_Z f ?= 1 # 2)%Q with
  | Lt => f
  | _ => f + 1
  end.

(** The sum of a list of scores. *)
Definition total (scores : list Z) : Z := fold_right Z.add 0 scores.

(** The exact mean of a list of scores. *)
Definition mean (scores : list Z) : Q :=
  (inject_Z (total scores) / inject_Z (Z.of_nat (List.length scores)))%Q.

(** The record carries a score, and it lies in [[0, 100]]. *)
Definition score_in_range (s : stock) : Prop :=
  exists z, confidence_score s = Some z /\ 0 <= z <= 100.

(** The number is an integer of [[0, 100]]. *)
Definition in_range (a : number) : Prop :=
  exists z, a = of_Z z /\ 0 <= z <= 100.

(** The statistics of an empty view. *)
Definition empty_stats : stats :=
  {| total_stocks := 0; high_confidence := 0; avg_score := of_Z 0 |}.

(** What [applyFilters] hands to the rendering layer: the filtered list
    and the statistics. *)
Definition view (r : dashboard * stats) : list stock * stats :=
  (filteredStocks (fst r), snd r).

(** The same for the variant whose callback may throw. *)
Definition api_view (d : dashboard) : completion (list stock * stats) :=
  r <- ApiDashboard.applyFilters d ;; Ok (view r).

(** The load failures of [dashboard.js], which are the outcomes of the fetch
    on which the [try] block of [loadData] throws: network error,
    non-success response, and a payload that is not JSON, is [null], or
    whose [stocks] property is missing, [null], a boolean, a number, the
    empty string, the empty array or an object whose [length] is not
    greater than 0. *)
Inductive load_failure : fetched Dashboard.payload -> Prop :=
| network_error : load_failure NetworkError
| bad_status content : load_failure (Response false content)
| not_json : load_failure (Response true Unparsable)
| null_data : load_failure (Response true (Parsed Dashboard.JsonNull))
| no_stock_list :
    load_failure
      (Response true (Parsed (Dashboard.JsonObject Dashboard.Absent)))
| null_stock_list :
    load_failure
      (Response true (Parsed (Dashboard.JsonObject Dashboard.Null)))
| empty_stock_list :
    load_failure
      (Response true (Parsed (Dashboard.JsonObject (Dashboard.Array []))))
| boolean_stock_list b :
    load_failure
      (Response true (Parsed (Dashboard.JsonObject (Dashboard.Boolean b))))
| number_stock_list q :
    load_failure
      (Response true (Parsed (Dashboard.JsonObject (Dashboard.Number q))))
| empty_text_stock_list :
    load_failure
      (Response true (Parsed (Dashboard.JsonObject (Dashboard.Text ""))))
| object_stock_list :
    load_failure
      (Response true
         (Parsed (Dashboard.JsonObject (Dashboard.Object false)))).

(** A dashboard showing the four sample records, no filter set. *)
Definition sample_dashboard : dashboard :=
  {| stocks := ApiDashboard.SAMPLE_DATA_stocks;
     filteredStocks := ApiDashboard.SAMPLE_DATA_stocks;
     currentRegion := "all"; searchTerm := "" |}.

(** A record with the given ticker, region and score and nothing else. *)
Definition bare (t r : string) (score : option Z) : stock :=
  {| ticker := t; name := None; company_name := None;
     region := r; confidence_score := score |}.

End SpecWords.

(** ** Cards: [getScoreClass] and [renderStockGrid] *)

Module Grid.
Import JSString JSNumber.

(** [getScoreClass], the same in both scripts. *)
Definition getScoreClass (score : option Z) : string :=
  if ge (of_property score) (of_Z 70) then "score-high"
  else if ge (of_property score) (of_Z 50) then "score-medium"
  else "score-low".

(** The values that [dashboard.js] interpolates into the markup of one card,
    the price, analysis and catalyst lines left out. *)
Record card : Type := {
  card_region : string;
  card_ticker : string;
  card_name : string;
  score_class : string;
  score_shown : Z
}.

(** [stock.company_name || stock.ticker] *)
Definition shownName (s : stock) : string :=
  match company_name s with
  | Some n => if truthy n then n else ticker s
  | None => ticker s
  end.

(** [stock.confidence_score || 0] *)
Definition shownScore (s : stock) : Z :=
  match confidence_score s with
  | Some z => if (z =? 0)%Z then 0 else z
  | None => 0
  end.

Definition cardOf (s : stock) : card :=
  {| card_region := region s;
     card_ticker := ticker s;
     card_name := shownName s;
     score_class := getScoreClass (confidence_score s);
     score_shown := shownScore s |}.

(** What [renderStockGrid] puts into the grid element: the "No stocks match
    your filters" message, or one card per record. *)
Inductive grid : Type :=
| NoResults
| Cards (cards : list card).

(** [renderStockGrid] of [dashboard.js], on a page that has the grid
    element. *)
Definition renderStockGrid (filteredStocks : list stock) : grid :=
  if (List.length filteredStocks =? 0)%nat then NoResults
  else Cards (map cardOf filteredStocks).

End Grid.

(** ** Page load and user events *)

(** What the two listeners of [setupEventListeners] receive. *)
Inductive event : Type :=
| RegionClick (data_region : string)
| SearchInput (value : string).

(** [dashboard.js]: [init], and the dashboard after one and after several
    events. *)
Module Session.



Definition handle (e : event) (d : dashboard) : dashboard :=
  match e with
  | RegionClick data_region => fst (Dashboard.onRegionClick data_region d)
  | SearchInput value => fst (Dashboard.onSearchInput value d)
  end.

Definition run (events : list event) (d : dashboard) : dashboard :=
  fold_left (fun d e => handle e d) events d.

End Session.

(** The variant that fetches [/api/stocks]: a listener assigns the region or
    the term and then calls [applyFilters]; when that throws, the assignment
    stays and [filteredStocks] is not written.  The records are taken to
    carry the prices that the cards of this variant format. *)
Module ApiSession.
Import JSString.

(** The dashboard after the listener ran, and the exception it let
    escape. *)
Definition handle (e : event) (d : dashboard) : dashboard * option exn :=
  let assigned :=
    match e with
    | RegionClick data_region => set_currentRegion d data_region
    | SearchInput value => set_searchTerm d (toLowerCase value)
    end in
  match ApiDashboard.applyFilters assigned with
  | Ok (d', _) => (d', None)
  | Throw x => (assigned, Some x)
  end.

Definition run (events : list event) (d : dashboard) : dashboard :=
  fold_left (fun d e => fst (handle e d)) events d.

End ApiSession.

(** ** Vocabulary for the properties of sessions *)

Module SessionWords.
Import JSString.

(** The test of the [dashboard.js] filter callback. *)
Definition kept_by (d : dashboard) (s : stock) : bool :=
  Dashboard.regionMatch d s && Dashboard.searchMatch d s.

(** The filtered list is the one that the region and the term of the
    dashboard select. *)
Definition consistent (d : dashboard) : Prop :=
  filteredStocks d = filter (kept_by d) (stocks d).

(** The region of the last click, [r0] when there was none. *)
Definition last_region (events : list event) (r0 : string) : string :=
  fold_left (fun r e => match e with RegionClick r' => r' | _ => r end)
            events r0.

(** The lower-cased text of the last input, [t0] when there was none. *)
Definition last_term (events : list event) (t0 : string) : string :=
  fold_left (fun t e => match e with
                        | SearchInput v => toLowerCase v
                        | _ => t
                        end)
            events t0.

(** The record has no name, and its ticker does not include the term. *)
Definition breaks_search (term : string) (s : stock) : Prop :=
  name s = None /\ includes (toLowerCase (ticker s)) term = false.

(** Every score of the list lies between [lo] and [hi]. *)
Definition scores_between (lo hi : Z) (l : list stock) : Prop :=
  Forall (fun s => exists z, confidence_score s = Some z /\ lo <= z <= hi) l.

(** Whether [loadData] showed the banner: it does so in its [catch] block
    only. *)
Definition banner (c : completion loaded) : bool :=
  match c with
  | Ok (Records _ warned) | Ok (Characters _ warned) => warned
  | Throw _ => false
  end.

(** Every character of the string is an ASCII character. *)
Fixpoint ascii_only (s : string) : bool :=
  match s with
  | EmptyString => true
  | String c rest => (nat_of_ascii c <? 128)%nat && ascii_only rest
  end.

(** The fetch of the variant failed: network error, non-success response or
    a body that is not JSON. *)
Definition api_fetch_failed (r : fetched ApiDashboard.payload) : Prop :=
  r = NetworkError \/ (exists content, r = Response false content) \/
  r = Response true Unparsable.

End SessionWords.

(** * Properties *)

Unset Implicit Arguments.

(** ** Strings *)

Module JSStringFacts.
Import JSString.

Lemma lower_char_not_upper (c : ascii) : is_upper (lower_char c) = false.
Proof.
  destruct c as [[] [] [] [] [] [] [] []]; reflexivity.
Qed.

(** A lower-cased string has no upper-case letter left. *)
Lemma toLowerCase_no_upper (s : string) : has_upper (toLowerCase s) = false.
Proof.
  induction s as [| c rest IH]; simpl.
  - reflexivity.
  - now rewrite lower_char_not_upper, IH.
Qed.

Lemma startsWith_occurs (c : ascii) (t s : string) :
  startsWith s t = true -> occurs c t = true -> occurs c s = true.
Proof.
  revert s.
  induction t as [| b t' IH]; intros s Hpre Hocc; simpl in *.
  - discriminate.
  - destruct s as [| a s']; [discriminate |].
    apply andb_true_iff in Hpre as [Hab Hrest].
    apply Ascii.eqb_eq in Hab; subst b.
    simpl.
    apply orb_true_iff in Hocc as [Hhead | Htail].
    + now rewrite Hhead.
    + rewrite (IH s' Hrest Htail). apply orb_true_r.
Qed.

(** Every character of an included string occurs in the including one. *)
Lemma includes_occurs (c : ascii) (t s : string) :
  includes s t = true -> occurs c t = true -> occurs c s = true.
Proof.
  intros Hinc Hocc.
  induction s as [| a s' IH]; simpl in Hinc.
  - rewrite orb_false_r in Hinc. eapply startsWith_occurs; eauto.
  - apply orb_true_iff in Hinc as [Hpre | Hlater].
    + eapply startsWith_occurs; eauto.
    + simpl. rewrite (IH Hlater). apply orb_true_r.
Qed.

Lemma has_upper_occurs (t : string) :
  has_upper t = true ->
  exists c, is_upper c = true /\ occurs c t = true.
Proof.
  induction t as [| a t' IH]; simpl; intros H.
  - discriminate.
  - apply orb_true_iff in H as [Ha | Ht].
    + exists a. split; [exact Ha |]. now rewrite Ascii.eqb_refl.
    + destruct (IH Ht) as [c [Hc Hocc]].
      exists c. split; [exact Hc |]. rewrite Hocc. apply orb_true_r.
Qed.

Lemma occurs_upper (c : ascii) (s : string) :
  is_upper c = true -> occurs c s = true -> has_upper s = true.
Proof.
  intros Hc.
  induction s as [| a s' IH]; simpl; intros H.
  - discriminate.
  - apply orb_true_iff in H as [Ha | Hs].
    + apply Ascii.eqb_eq in Ha; subst a. now rewrite Hc.
    + rewrite (IH Hs). apply orb_true_r.
Qed.

(** A term with an upper-case letter is included in no lower-cased
    string. *)
Lemma upper_term_not_included (term s : string) :
  has_upper term = true -> includes (toLowerCase s) term = false.
Proof.
  intros Hterm.
  destruct (includes (toLowerCase s) term) eqn:Hinc; [| reflexivity].
  destruct (has_upper_occurs term Hterm) as [c [Hc Hocc]].
  pose proof (includes_occurs c term (toLowerCase s) Hinc Hocc) as Hin.
  pose proof (occurs_upper c (toLowerCase s) Hc Hin) as Hup.
  rewrite toLowerCase_no_upper in Hup. discriminate.
Qed.

Lemma has_upper_truthy (term : string) :
  has_upper term = true -> truthy term = true.
Proof.
  destruct term; simpl; [discriminate | reflexivity].
Qed.

Lemma truthy_nonempty (s : string) : truthy s = true <-> s <> "".
Proof.
  destruct s; simpl; split; intros H; try reflexivity; try discriminate.
  now elim H.
Qed.

(** Nothing but the empty string is included in the empty string. *)
Lemma includes_empty_l (t : string) :
  truthy t = true -> includes "" t = false.
Proof.
  destruct t; simpl; [discriminate | reflexivity].
Qed.

End JSStringFacts.

(** ** Filtering *)

Section FilterFacts.
Context {A : Type}.

Lemma filter_subsequence (f : A -> bool) (l : list A) :
  subsequence (filter f l) l.
Proof.
  induction l as [| x l IH]; simpl.
  - constructor.
  - destruct (f x); now constructor.
Qed.

(** A callback that never throws makes [filterM] the plain filter. *)
Lemma filterM_pure (f : A -> completion bool) (g : A -> bool) (l : list A) :
  (forall x, In x l -> f x = Ok (g x)) ->
  filterM f l = Ok (filter g l).
Proof.
  induction l as [| x l IH]; intros Hf; simpl.
  - reflexivity.
  - rewrite (Hf x (or_introl eq_refl)). simpl.
    rewrite IH by (intros y Hy; apply Hf; now right).
    simpl. now destruct (g x).
Qed.

Lemma filterM_subsequence (f : A -> completion bool) (l kept : list A) :
  filterM f l = Ok kept -> subsequence kept l.
Proof.
  revert kept.
  induction l as [| x l IH]; simpl; intros kept H.
  - injection H as <-. constructor.
  - destruct (f x) as [keep | e]; simpl in H; [| discriminate].
    destruct (filterM f l) as [rest | e]; simpl in H; [| discriminate].
    injection H as <-.
    destruct keep; constructor; now apply IH.
Qed.

Lemma filter_all (f : A -> bool) (l : list A) :
  (forall x, In x l -> f x = true) -> filter f l = l.
Proof.
  induction l as [| x l IH]; intros Hf; simpl.
  - reflexivity.
  - rewrite (Hf x (or_introl eq_refl)).
    f_equal. apply IH. intros y Hy. apply Hf. now right.
Qed.

Lemma filter_none (f : A -> bool) (l : list A) :
  (forall x, In x l -> f x = false) -> filter f l = [].
Proof.
  induction l as [| x l IH]; intros Hf; simpl.
  - reflexivity.
  - rewrite (Hf x (or_introl eq_refl)).
    apply IH. intros y Hy. apply Hf. now right.
Qed.

End FilterFacts.

Module DashboardFacts.
Import JSString JSStringFacts Dashboard.

(** The region test is an exact comparison of strings. *)
Lemma regionMatch_exact (d : dashboard) (s : stock) :
  regionMatch d s = true <->
  currentRegion d = "all" \/ region s = currentRegion d.
Proof.
  unfold regionMatch.
  rewrite orb_true_iff, !String.eqb_eq. reflexivity.
Qed.

(** With a term to look for, a record matches exactly when its ticker or
    its [company_name], lower-cased, includes the term. *)
Lemma searchMatch_spec (d : dashboard) (s : stock) :
  searchTerm d <> "" ->
  (searchMatch d s = true <->
   includes (toLowerCase (ticker s)) (searchTerm d) = true \/
   exists n, company_name s = Some n /\
             includes (toLowerCase n) (searchTerm d) = true).
Proof.
  intros Hterm. apply truthy_nonempty in Hterm.
  unfold searchMatch. rewrite Hterm. simpl.
  rewrite orb_true_iff.
  split; (intros [Hticker | Hname]; [now left | right]).
  - destruct (company_name s) as [n |]; [| discriminate].
    apply andb_true_iff in Hname as [_ Hinc]. now exists n.
  - destruct Hname as [n [-> Hinc]].
    rewrite Hinc, andb_true_r.
    destruct n; [| reflexivity].
    rewrite includes_empty_l in Hinc by exact Hterm. discriminate.
Qed.

(** Without a [company_name] the ticker alone decides. *)
Lemma searchMatch_no_company_name (d : dashboard) (s : stock) :
  searchTerm d <> "" ->
  company_name s = None ->
  searchMatch d s = includes (toLowerCase (ticker s)) (searchTerm d).
Proof.
  intros Hterm Hnone. apply truthy_nonempty in Hterm.
  unfold searchMatch. rewrite Hterm, Hnone. simpl.
  apply orb_false_r.
Qed.

Lemma searchMatch_empty_term (d : dashboard) (s : stock) :
  searchTerm d = "" -> searchMatch d s = true.
Proof.
  intros Hterm. unfold searchMatch. now rewrite Hterm.
Qed.

Lemma searchMatch_upper_term (d : dashboard) (s : stock) :
  has_upper (searchTerm d) = true -> searchMatch d s = false.
Proof.
  intros Hup. unfold searchMatch.
  rewrite (has_upper_truthy _ Hup), (upper_term_not_included _ (ticker s) Hup).
  simpl.
  destruct (company_name s) as [n |]; [| reflexivity].
  rewrite (upper_term_not_included _ n Hup). apply andb_false_r.
Qed.

(** [applyFilters] writes [filteredStocks] and nothing else. *)
Lemma applyFilters_frame (d : dashboard) :
  let d' := fst (applyFilters d) in
  stocks d' = stocks d /\
  currentRegion d' = currentRegion d /\
  searchTerm d' = searchTerm d.
Proof.
  simpl. auto.
Qed.

Lemma applyFilters_idempotent (d : dashboard) :
  applyFilters (fst (applyFilters d)) = applyFilters d.
Proof.
  unfold applyFilters. simpl. reflexivity.
Qed.

End DashboardFacts.

Module ApiDashboardFacts.
Import JSString JSStringFacts ApiDashboard.

Lemma api_regionMatch_exact (d : dashboard) (s : stock) :
  regionMatch d s = true <->
  currentRegion d = "all" \/ region s = currentRegion d.
Proof.
  unfold regionMatch.
  rewrite orb_true_iff, !String.eqb_eq. reflexivity.
Qed.

(** With a term to look for, a record that has a [name] matches exactly
    when its ticker or its name, lower-cased, includes the term. *)
Lemma searchMatch_named (d : dashboard) (s : stock) (n : string) :
  searchTerm d <> "" ->
  name s = Some n ->
  searchMatch d s =
  Ok (includes (toLowerCase (ticker s)) (searchTerm d) ||
      includes (toLowerCase n) (searchTerm d)).
Proof.
  intros Hterm Hname. apply truthy_nonempty in Hterm.
  unfold searchMatch. rewrite Hterm, Hname. simpl.
  now destruct (includes (toLowerCase (ticker s)) (searchTerm d)).
Qed.

(** A record without a [name] whose ticker does not match makes the
    callback throw. *)
Lemma searchMatch_unnamed (d : dashboard) (s : stock) :
  searchTerm d <> "" ->
  name s = None ->
  includes (toLowerCase (ticker s)) (searchTerm d) = false ->
  searchMatch d s = Throw (TypeError "Cannot read properties of undefined").
Proof.
  intros Hterm Hname Hticker. apply truthy_nonempty in Hterm.
  unfold searchMatch. now rewrite Hterm, Hname, Hticker.
Qed.

Lemma api_searchMatch_empty_term (d : dashboard) (s : stock) :
  searchTerm d = "" -> searchMatch d s = Ok true.
Proof.
  intros Hterm. unfold searchMatch. now rewrite Hterm.
Qed.

Lemma api_searchMatch_upper_term (d : dashboard) (s : stock) :
  has_upper (searchTerm d) = true ->
  searchMatch d s =
  match name s with
  | Some _ => Ok false
  | None => Throw (TypeError "Cannot read properties of undefined")
  end.
Proof.
  intros Hup. unfold searchMatch.
  rewrite (has_upper_truthy _ Hup), (upper_term_not_included _ (ticker s) Hup).
  simpl.
  destruct (name s) as [n |]; [| reflexivity].
  now rewrite (upper_term_not_included _ n Hup).
Qed.

(** With the empty term the callback is the region test. *)
Lemma keeps_empty_term (d : dashboard) (s : stock) :
  searchTerm d = "" -> keeps d s = Ok (regionMatch d s).
Proof.
  intros Hterm. unfold keeps.
  rewrite (api_searchMatch_empty_term d s Hterm). simpl.
  now rewrite andb_true_r.
Qed.

(** The callback reads the stock list, the region and the term only. *)
Lemma keeps_ext (d1 d2 : dashboard) (s : stock) :
  currentRegion d1 = currentRegion d2 ->
  searchTerm d1 = searchTerm d2 ->
  keeps d1 s = keeps d2 s.
Proof.
  intros Hregion Hterm.
  unfold keeps, searchMatch, regionMatch. now rewrite Hregion, Hterm.
Qed.

Lemma filterM_keeps_ext (d1 d2 : dashboard) (l : list stock) :
  currentRegion d1 = currentRegion d2 ->
  searchTerm d1 = searchTerm d2 ->
  filterM (keeps d1) l = filterM (keeps d2) l.
Proof.
  intros Hregion Hterm.
  induction l as [| s l IH]; simpl.
  - reflexivity.
  - now rewrite (keeps_ext d1 d2 s Hregion Hterm), IH.
Qed.

(** When [applyFilters] returns, it has written [filteredStocks] and
    nothing else, and what it wrote is a subsequence of the stock list. *)
Lemma api_applyFilters_frame (d d' : dashboard) (st : stats) :
  applyFilters d = Ok (d', st) ->
  stocks d' = stocks d /\
  currentRegion d' = currentRegion d /\
  searchTerm d' = searchTerm d /\
  subsequence (filteredStocks d') (stocks d) /\
  st = Stats.renderStats (filteredStocks d').
Proof.
  unfold applyFilters.
  destruct (filterM (keeps d) (stocks d)) as [kept |] eqn:Hkept; simpl;
    [| discriminate].
  intros H. injection H as <- <-. simpl.
  repeat split. now apply filterM_subsequence with (f := keeps d).
Qed.

Lemma api_applyFilters_idempotent (d d' : dashboard) (st : stats) :
  applyFilters d = Ok (d', st) -> applyFilters d' = Ok (d', st).
Proof.
  unfold applyFilters.
  destruct (filterM (keeps d) (stocks d)) as [kept |] eqn:Hkept; simpl;
    [| discriminate].
  intros H. injection H as <- <-. simpl.
  rewrite (filterM_keeps_ext (set_filteredStocks d kept) d (stocks d))
    by reflexivity.
  now rewrite Hkept.
Qed.

End ApiDashboardFacts.

(** ** Numbers *)

Module JSNumberFacts.
Import JSNumber SpecWords.

Lemma of_Z_inj (a b : Z) : of_Z a = of_Z b -> a = b.
Proof.
  unfold of_Z, inject_Z. intros H. now injection H.
Qed.

Lemma NaN_not_integer : ~ is_integer NaN.
Proof.
  intros [z Hz]. discriminate.
Qed.

Lemma add_of_Z (a b : Z) : add (of_Z a) (of_Z b) = of_Z (a + b).
Proof.
  unfold add, of_Z, inject_Z, Qplus. simpl.
  now rewrite !Z.mul_1_r.
Qed.

Lemma add_NaN_r (a : number) : add a NaN = NaN.
Proof.
  now destruct a.
Qed.

(** Dividing two integers, the divisor positive, is exact division. *)
Lemma div_of_Z (a n : Z) :
  0 < n ->
  div (of_Z a) (of_Z n) = Fin (inject_Z a / inject_Z n).
Proof.
  intros Hn. unfold div, of_Z.
  destruct (Qeq_bool (inject_Z n) 0) eqn:Hzero; [| reflexivity].
  apply Qeq_bool_eq in Hzero.
  unfold Qeq, inject_Z in Hzero. simpl in Hzero. lia.
Qed.

(** An integer between [x] and [x + 1] is the floor of [x]. *)
Lemma Qfloor_unique (x : Q) (z : Z) :
  (inject_Z z <= x)%Q -> (x < inject_Z (z + 1))%Q -> Qfloor x = z.
Proof.
  intros Hlow Hhigh.
  apply Z.le_antisymm.
  - apply Z.lt_succ_r. rewrite <- Z.add_1_r.
    rewrite Zlt_Qlt.
    apply Qle_lt_trans with (y := x); [apply Qfloor_le | exact Hhigh].
  - rewrite <- (Qfloor_Z z). now apply Qfloor_resp_le.
Qed.

(** [Math.round] rounds to the nearest integer, a tie going up. *)
Lemma floor_plus_half (x : Q) : Qfloor (x + (1 # 2)) = round_half_up x.
Proof.
  unfold round_half_up.
  pose proof (Qfloor_le x) as Hlow.
  pose proof (Qlt_floor x) as Hhigh.
  set (f := Qfloor x) in *.
  rewrite inject_Z_plus in Hhigh.
  destruct (x - inject_Z f ?= 1 # 2)%Q eqn:Hcmp.
  - apply Qeq_alt in Hcmp.
    apply Qfloor_unique; rewrite !inject_Z_plus; simpl inject_Z.
    + setoid_replace x with ((x - inject_Z f) + inject_Z f)%Q by ring.
      rewrite Hcmp. apply Qle_minus_iff. ring_simplify. discriminate.
    + setoid_replace x with ((x - inject_Z f) + inject_Z f)%Q by ring.
      rewrite Hcmp. apply Qlt_minus_iff. ring_simplify. reflexivity.
  - apply Qlt_alt in Hcmp.
    apply Qfloor_unique; rewrite ?inject_Z_plus; simpl inject_Z.
    + apply Qle_trans with (y := x); [exact Hlow |].
      apply Qle_minus_iff. ring_simplify. discriminate.
    + apply Qlt_minus_iff. apply Qlt_minus_iff in Hcmp.
      setoid_replace (inject_Z f + 1 + - (x + (1 # 2)))%Q
        with ((1 # 2) + - (x - inject_Z f))%Q by ring.
      exact Hcmp.
  - apply Qgt_alt in Hcmp.
    apply Qfloor_unique; rewrite !inject_Z_plus; simpl inject_Z.
    + apply Qlt_le_weak. apply Qlt_minus_iff. apply Qlt_minus_iff in Hcmp.
      setoid_replace (x + (1 # 2) + - (inject_Z f + 1))%Q
        with (x - inject_Z f + - (1 # 2))%Q by ring.
      exact Hcmp.
    + apply Qlt_minus_iff. apply Qlt_minus_iff in Hhigh.
      setoid_replace (inject_Z f + 1 + 1 + - (x + (1 # 2)))%Q
        with ((inject_Z f + 1 + - x) + (1 # 2))%Q by ring.
      apply Qlt_le_trans with (y := (0 + (1 # 2))%Q); [reflexivity |].
      apply Qplus_le_l. now apply Qlt_le_weak.
Qed.

End JSNumberFacts.

(** ** Aggregation *)

Module StatsFacts.
Import JSNumber JSNumberFacts SpecWords Stats.

(** The floor of a mean plus one half, in integer arithmetic. *)
Lemma floor_mean_plus_half (a n : Z) :
  0 < n ->
  Qfloor (inject_Z a / inject_Z n + (1 # 2)) = (2 * a + n) / (2 * n).
Proof.
  intros Hn.
  rewrite Zdiv_Qdiv.
  apply Qfloor_comp.
  rewrite inject_Z_plus, !inject_Z_mult. simpl (inject_Z 2).
  assert (Hnz : ~ (inject_Z n == 0)%Q).
  { unfold Qeq, inject_Z. simpl. lia. }
  field. exact Hnz.
Qed.

Lemma fold_scores_present (l : list stock) (scores : list Z) (acc : Z) :
  map confidence_score l = map Some scores ->
  fold_left (fun sum s => add sum (of_property (confidence_score s)))
            l (of_Z acc)
  = of_Z (acc + total scores).
Proof.
  revert scores acc.
  induction l as [| s l IH]; intros [| z scores] acc H; simpl in H;
    try discriminate.
  - simpl. now rewrite Z.add_0_r.
  - injection H as Hs Hl. cbn [fold_left]. rewrite Hs. cbn [of_property].
    rewrite add_of_Z, (IH scores (acc + z) Hl).
    f_equal. unfold total. cbn [fold_right]. lia.
Qed.

(** When every record carries a score, the reduction is their sum. *)
Lemma scoreSum_present (l : list stock) (scores : list Z) :
  map confidence_score l = map Some scores ->
  scoreSum l = of_Z (total scores).
Proof.
  intros H. unfold scoreSum.
  now rewrite (fold_scores_present l scores 0 H).
Qed.

Lemma fold_scores_NaN (l : list stock) :
  fold_left (fun sum s => add sum (of_property (confidence_score s))) l NaN
  = NaN.
Proof.
  induction l as [| s l IH]; simpl; [reflexivity | exact IH].
Qed.

Lemma fold_scores_missing (l : list stock) (acc : number) :
  Exists (fun s => confidence_score s = None) l ->
  fold_left (fun sum s => add sum (of_property (confidence_score s))) l acc
  = NaN.
Proof.
  intros H. revert acc.
  induction H as [s l Hs | s l _ IH]; intros acc; simpl.
  - rewrite Hs. simpl. rewrite add_NaN_r. apply fold_scores_NaN.
  - apply IH.
Qed.

(** One record without a score turns the whole reduction into [NaN]. *)
Lemma scoreSum_missing (l : list stock) :
  Exists (fun s => confidence_score s = None) l -> scoreSum l = NaN.
Proof.
  apply fold_scores_missing.
Qed.

(** ... and with it the average. *)
Lemma avg_score_missing (l : list stock) :
  Exists (fun s => confidence_score s = None) l ->
  avg_score (renderStats l) = NaN.
Proof.
  intros H. unfold renderStats, avgScore. simpl.
  rewrite (scoreSum_missing l H).
  destruct l as [| s l]; [inversion H | reflexivity].
Qed.

(** A record without a score is not of high confidence. *)
Lemma missing_not_high (s : stock) :
  confidence_score s = None -> isHighConfidence s = false.
Proof.
  intros H. unfold isHighConfidence. now rewrite H.
Qed.

Lemma isHighConfidence_present (s : stock) (z : Z) :
  confidence_score s = Some z -> isHighConfidence s = (70 <=? z)%Z.
Proof.
  intros H. unfold isHighConfidence. rewrite H. simpl.
  unfold Qle_bool, inject_Z. simpl. now rewrite !Z.mul_1_r.
Qed.

Lemma avg_score_empty : avg_score (renderStats []) = of_Z 0.
Proof.
  reflexivity.
Qed.

(** The average of a non-empty list whose records all carry a score. *)
Lemma avg_score_present (l : list stock) (scores : list Z) :
  l <> [] ->
  map confidence_score l = map Some scores ->
  avg_score (renderStats l) = of_Z (round_half_up (mean scores)).
Proof.
  intros Hne H.
  assert (Hlen : List.length scores = List.length l).
  { rewrite <- (length_map Some scores), <- H. apply length_map. }
  destruct l as [| s l]; [now elim Hne |].
  unfold renderStats. cbn [avg_score]. unfold avgScore. cbv zeta.
  change (0 <? List.length (s :: l))%nat with true. cbv iota.
  unfold then_, divide, pure. cbn [fst].
  rewrite (scoreSum_present (s :: l) scores H).
  rewrite div_of_Z by (cbn [List.length]; lia).
  unfold Math_round, mean. now rewrite floor_plus_half, Hlen.
Qed.

(** The same average in integer arithmetic. *)
Lemma avg_score_present_Z (l : list stock) (scores : list Z) :
  l <> [] ->
  map confidence_score l = map Some scores ->
  let n := Z.of_nat (List.length l) in
  avg_score (renderStats l) = of_Z ((2 * total scores + n) / (2 * n)).
Proof.
  intros Hne H n.
  rewrite (avg_score_present l scores Hne H). f_equal.
  assert (Hlen : List.length scores = List.length l).
  { rewrite <- (length_map Some scores), <- H. apply length_map. }
  rewrite <- floor_plus_half. unfold mean. rewrite Hlen.
  apply floor_mean_plus_half.
  subst n. destruct l; [now elim Hne | simpl List.length; lia].
Qed.

Lemma high_confidence_le_total (l : list stock) :
  (high_confidence (renderStats l) <= total_stocks (renderStats l))%nat.
Proof.
  simpl. apply filter_length_le.
Qed.

(** Every division that [avgScore] evaluates has a positive divisor. *)
Lemma avgScore_divisions (l : list stock) (e : division) :
  In e (snd (avgScore l)) ->
  exists n : Z, 0 < n /\ divisor e = of_Z n.
Proof.
  unfold avgScore.
  destruct l as [| s l]; simpl.
  - intros [].
  - intros [<- | []]. simpl.
    exists (Z.pos (Pos.of_succ_nat (List.length l))). split; [lia | reflexivity].
Qed.

End StatsFacts.

(** ** Loading *)

Module LoadFacts.
Import SpecWords.

(** [dashboard.js] replaces every failed load by the sample records and
    shows the banner. *)
Lemma dashboard_load_failure (r : fetched Dashboard.payload) (d : dashboard) :
  load_failure r ->
  Dashboard.loadData r d =
  Ok (Records
        (set_filteredStocks (set_stocks d Dashboard.SAMPLE_DATA_stocks)
                            Dashboard.SAMPLE_DATA_stocks) true).
Proof.
  intros H. destruct H; try reflexivity.
  - now destruct b.
  - unfold Dashboard.loadData, Dashboard.tryLoad. cbn.
    now destruct (Qeq_bool q 0).
Qed.

(** Whatever the fetch produced, a list of records that [dashboard.js] ends
    with is not empty, and all of it is shown. *)
Lemma dashboard_load_never_empty
      (r : fetched Dashboard.payload) (d d' : dashboard) (warned : bool) :
  Dashboard.loadData r d = Ok (Records d' warned) ->
  stocks d' <> [] /\ filteredStocks d' = stocks d'.
Proof.
  unfold Dashboard.loadData.
  destruct (Dashboard.tryLoad r) as [v | x] eqn:Htry.
  - destruct v as [| | b | q | s | l | p]; try discriminate.
    intros H. injection H as <- _. cbn. split; [| reflexivity].
    unfold Dashboard.tryLoad in Htry.
    destruct r as [| [] [| [| v]]]; try discriminate.
    destruct (Dashboard.truthy_stocks v && Dashboard.length_positive v)
      eqn:Htest; [| discriminate].
    injection Htry as ->. cbn in Htest.
    destruct l; [discriminate Htest | discriminate].
  - intros H. injection H as <- _. cbn. split; [discriminate | reflexivity].
Qed.

(** The variant accepts whatever array the response holds. *)
Lemma api_load_array (l : list stock) (d : dashboard) :
  ApiDashboard.loadData (Response true (Parsed (ApiDashboard.JsonArray l))) d
  = Ok (Records (set_filteredStocks (set_stocks d l) l) false).
Proof.
  reflexivity.
Qed.

End LoadFacts.

(** * The specification's statements, against the two scripts *)

Import JSString JSNumber SpecWords.

(** ** Search *)

(** C1. The specification lets the ticker alone decide the search for a
    record that has no name, without any error.  In the variant that fetches
    [/api/stocks] such a record, when its ticker does not include the term,
    makes the filter callback throw: typing "xyz" over a list holding a
    nameless MSFT record ends [applyFilters] with a [TypeError], and no
    filtered list is produced. *)
Theorem C1_nameless_record_throws :
  ApiDashboard.onSearchInput "xyz"
    (set_stocks constructed [bare "MSFT" "US" (Some 76)])
  = Throw (TypeError "Cannot read properties of undefined").
Proof.
  reflexivity.
Qed.

(** [dashboard.js] guards the name, and there the ticker alone decides; but
    the name it reads is [company_name], so that its own sample record, which
    carries [name], is not found by its name. *)
Lemma dashboard_nameless_record_by_ticker :
  view (Dashboard.onSearchInput "xyz"
          (set_stocks constructed [bare "MSFT" "US" (Some 76)]))
  = ([], empty_stats) /\
  view (Dashboard.onSearchInput "ms"
          (set_stocks constructed [bare "MSFT" "US" (Some 76)]))
  = ([bare "MSFT" "US" (Some 76)],
     {| total_stocks := 1; high_confidence := 1; avg_score := of_Z 76 |}).
Proof.
  split; reflexivity.
Qed.

Lemma dashboard_sample_name_not_searched :
  view (Dashboard.onSearchInput "apple"
          (set_stocks constructed Dashboard.SAMPLE_DATA_stocks))
  = ([], empty_stats).
Proof.
  reflexivity.
Qed.

(** C10. [applyFilters] compares the stored term as it is: a term with an
    upper-case letter matches no record in the search clause, whatever the
    record, since the ticker and the name are lower-cased before the
    comparison; the term is lower-cased by the input handler only. *)
Theorem C10_stored_term_verbatim (d : dashboard) (s : stock) :
  has_upper (searchTerm d) = true ->
  Dashboard.searchMatch d s = false /\
  ApiDashboard.searchMatch d s <> Ok true /\
  (forall n, name s = Some n -> ApiDashboard.searchMatch d s = Ok false) /\
  (forall value,
      searchTerm (fst (Dashboard.onSearchInput value d)) = toLowerCase value) /\
  (forall value d' st,
      ApiDashboard.onSearchInput value d = Ok (d', st) ->
      searchTerm d' = toLowerCase value).
Proof.
  intros Hup. repeat split.
  - now apply DashboardFacts.searchMatch_upper_term.
  - rewrite (ApiDashboardFacts.api_searchMatch_upper_term d s Hup).
    destruct (name s); discriminate.
  - intros n Hn.
    rewrite (ApiDashboardFacts.api_searchMatch_upper_term d s Hup).
    now rewrite Hn.
  - intros value d' st H.
    apply ApiDashboardFacts.api_applyFilters_frame in H.
    destruct H as (_ & _ & Hterm & _). exact Hterm.
Qed.

(** The term "AAP" against the sample record AAPL. *)
Lemma C10_stored_term_verbatim_witness :
  let d := set_searchTerm sample_dashboard "AAP" in
  let s := {| ticker := "AAPL"; name := Some "Apple Inc.";
              company_name := None; region := "US";
              confidence_score := Some 82 |} in
  has_upper (searchTerm d) = true /\
  Dashboard.searchMatch d s = false /\
  ApiDashboard.searchMatch d s = Ok false.
Proof.
  intros d s.
  split; [reflexivity |].
  destruct (C10_stored_term_verbatim d s eq_refl) as (HA & _ & HB & _).
  split; [exact HA | exact (HB "Apple Inc." eq_refl)].
Defined.

(** Typed into the search box, the same term does find the record. *)
Lemma search_box_lowers_term :
  fst (view (Dashboard.onSearchInput "AAP" sample_dashboard))
  = [ {| ticker := "AAPL"; name := Some "Apple Inc."; company_name := None;
         region := "US"; confidence_score := Some 82 |} ].
Proof.
  reflexivity.
Qed.

(** ** Region *)

(** C6. With region "all" and the empty term, [applyFilters] keeps every
    record, in the order of the stock list. *)
Theorem C6_identity_filter (d : dashboard) :
  currentRegion d = "all" ->
  searchTerm d = "" ->
  Dashboard.applyFilters d
  = (set_filteredStocks d (stocks d), Stats.renderStats (stocks d)) /\
  ApiDashboard.applyFilters d
  = Ok (set_filteredStocks d (stocks d), Stats.renderStats (stocks d)).
Proof.
  intros Hregion Hterm. split.
  - unfold Dashboard.applyFilters, Dashboard.render.
    rewrite filter_all; [reflexivity |].
    intros s _.
    rewrite (DashboardFacts.searchMatch_empty_term d s Hterm), andb_true_r.
    apply DashboardFacts.regionMatch_exact. now left.
  - unfold ApiDashboard.applyFilters, ApiDashboard.render.
    rewrite (filterM_pure (ApiDashboard.keeps d) (ApiDashboard.regionMatch d))
      by (intros s _; now apply ApiDashboardFacts.keeps_empty_term).
    rewrite filter_all; [reflexivity |].
    intros s _. apply ApiDashboardFacts.api_regionMatch_exact. now left.
Qed.

Lemma C6_identity_filter_witness :
  let d := set_filteredStocks sample_dashboard [] in
  currentRegion d = "all" /\ searchTerm d = "" /\
  filteredStocks (fst (Dashboard.applyFilters d))
  = ApiDashboard.SAMPLE_DATA_stocks.
Proof.
  intros d.
  split; [reflexivity | split; [reflexivity |]].
  now rewrite (proj1 (C6_identity_filter d eq_refl eq_refl)).
Defined.

(** C7. The region test is an exact comparison: over records whose regions
    are "US", "UK" or "EU", the region "us" with the empty term keeps no
    record. *)
Theorem C7_region_case_sensitive (d : dashboard) :
  currentRegion d = "us" ->
  searchTerm d = "" ->
  Forall (fun s => In (region s) ["US"; "UK"; "EU"]) (stocks d) ->
  Dashboard.applyFilters d = (set_filteredStocks d [], empty_stats) /\
  ApiDashboard.applyFilters d = Ok (set_filteredStocks d [], empty_stats).
Proof.
  intros Hregion Hterm Hregions.
  assert (Hnone : forall s, In s (stocks d) ->
                            Dashboard.regionMatch d s = false).
  { intros s Hs.
    rewrite Forall_forall in Hregions. specialize (Hregions s Hs).
    unfold Dashboard.regionMatch. rewrite Hregion.
    simpl in Hregions.
    destruct Hregions as [<- | [<- | [<- | []]]]; reflexivity. }
  split.
  - unfold Dashboard.applyFilters, Dashboard.render.
    rewrite filter_none; [reflexivity |].
    intros s Hs. now rewrite (Hnone s Hs).
  - unfold ApiDashboard.applyFilters, ApiDashboard.render.
    rewrite (filterM_pure (ApiDashboard.keeps d) (ApiDashboard.regionMatch d))
      by (intros s _; now apply ApiDashboardFacts.keeps_empty_term).
    rewrite filter_none; [reflexivity |].
    exact Hnone.
Qed.

Lemma C7_region_case_sensitive_witness :
  let d := set_currentRegion sample_dashboard "us" in
  currentRegion d = "us" /\ searchTerm d = "" /\
  Forall (fun s => In (region s) ["US"; "UK"; "EU"]) (stocks d) /\
  Dashboard.applyFilters d = (set_filteredStocks d [], empty_stats).
Proof.
  intros d.
  assert (Hregions : Forall (fun s => In (region s) ["US"; "UK"; "EU"])
                            (stocks d)).
  { repeat (apply Forall_cons || apply Forall_nil); simpl; auto 6. }
  split; [reflexivity | split; [reflexivity | split; [exact Hregions |]]].
  exact (proj1 (C7_region_case_sensitive d eq_refl eq_refl Hregions)).
Defined.

(** ** Purity *)

(** C9. The filtered list and the statistics depend on the stock list, the
    region and the term only, so that equal inputs give equal outputs; the
    stock list is the same after the call as before, and the filtered list
    is a subsequence of it: nothing is added, changed or reordered. *)
Theorem C9_apply_pure (d1 d2 : dashboard) :
  stocks d1 = stocks d2 ->
  currentRegion d1 = currentRegion d2 ->
  searchTerm d1 = searchTerm d2 ->
  (view (Dashboard.applyFilters d1) = view (Dashboard.applyFilters d2) /\
   stocks (fst (Dashboard.applyFilters d1)) = stocks d1 /\
   subsequence (filteredStocks (fst (Dashboard.applyFilters d1))) (stocks d1))
  /\
  (api_view d1 = api_view d2 /\
   forall d' st,
     ApiDashboard.applyFilters d1 = Ok (d', st) ->
     stocks d' = stocks d1 /\
     subsequence (filteredStocks d') (stocks d1)).
Proof.
  intros Hstocks Hregion Hterm. split; [split; [| split] | split].
  - unfold view, Dashboard.applyFilters, Dashboard.render,
      Dashboard.regionMatch, Dashboard.searchMatch.
    cbn [fst snd filteredStocks set_filteredStocks].
    now rewrite Hstocks, Hregion, Hterm.
  - reflexivity.
  - apply filter_subsequence.
  - unfold api_view, ApiDashboard.applyFilters.
    rewrite (ApiDashboardFacts.filterM_keeps_ext d1 d2 (stocks d1) Hregion Hterm).
    rewrite Hstocks.
    now destruct (filterM (ApiDashboard.keeps d2) (stocks d2)).
  - intros d' st H.
    apply ApiDashboardFacts.api_applyFilters_frame in H.
    destruct H as (Hs & _ & _ & Hsub & _). now split.
Qed.

(** Two dashboards over the sample records, region "US": one shows all
    four records before the call, the other none. *)
Lemma C9_apply_pure_witness :
  let d1 := set_currentRegion sample_dashboard "US" in
  let d2 := set_filteredStocks d1 [] in
  stocks d1 = stocks d2 /\
  currentRegion d1 = currentRegion d2 /\
  searchTerm d1 = searchTerm d2 /\
  view (Dashboard.applyFilters d1) = view (Dashboard.applyFilters d2) /\
  api_view d1 = api_view d2.
Proof.
  intros d1 d2.
  destruct (C9_apply_pure d1 d2 eq_refl eq_refl eq_refl)
    as [[Hview _] [Hapi _]].
  repeat split; assumption.
Defined.

(** ** Statistics *)

(** C2. The specification counts a missing score as 0 in the sum.  The
    reduction adds [undefined] to the sum instead, which makes it [NaN]: the
    statistics of a list of AAPL with score 82 and a record without score
    are 2 records, 1 of high confidence, and the average [NaN], which is no
    integer (the specification's average is 41). *)
Theorem C2_missing_score_average_NaN :
  Stats.renderStats [bare "AAPL" "US" (Some 82); bare "MSFT" "US" None]
  = {| total_stocks := 2; high_confidence := 1; avg_score := NaN |} /\
  ~ is_integer NaN.
Proof.
  split; [reflexivity | exact JSNumberFacts.NaN_not_integer].
Qed.

(** C3, as the specification has it, fails: the scores 72 and 73 have the
    mean 72.5, whose neighbours are 72 and 73; [Math.round] gives 73, a tie
    going to the even neighbour gives 72. *)
Lemma C3_half_even_refuted :
  avg_score (Stats.renderStats
               [bare "A" "US" (Some 72); bare "B" "US" (Some 73)])
  <> of_Z (round_half_even (mean [72; 73])).
Proof.
  change (of_Z 73 <> of_Z 72).
  intros H. apply JSNumberFacts.of_Z_inj in H. discriminate H.
Qed.

(** C3. For a list whose records all carry a score, the scores being
    integers of [[0, 100]], the average is the mean of the scores rounded to
    the nearest integer, a tie going to the larger neighbour; for the empty
    list it is 0.  On these scores the sum and the quotient of the script,
    which are doubles, are the exact ones up to a rounding of the quotient
    that is too small to reach a half-integer. *)
Theorem C3_average_rounds_half_up (l : list stock) (scores : list Z) :
  map confidence_score l = map Some scores ->
  Forall (fun z => 0 <= z <= 100) scores ->
  avg_score (Stats.renderStats l)
  = match l with
    | [] => of_Z 0
    | _ :: _ => of_Z (round_half_up (mean scores))
    end.
Proof.
  intros H _. destruct l as [| s l].
  - reflexivity.
  - now apply StatsFacts.avg_score_present.
Qed.

Lemma C3_average_rounds_half_up_witness :
  let l := [bare "A" "US" (Some 72); bare "B" "US" (Some 73)] in
  map confidence_score l = map Some [72; 73] /\
  Forall (fun z => 0 <= z <= 100) [72; 73] /\
  avg_score (Stats.renderStats l) = of_Z (round_half_up (mean [72; 73])).
Proof.
  intros l.
  assert (Hrange : Forall (fun z => 0 <= z <= 100) [72; 73]).
  { repeat (apply Forall_cons || apply Forall_nil); lia. }
  split; [reflexivity | split; [exact Hrange |]].
  exact (C3_average_rounds_half_up l [72; 73] eq_refl Hrange).
Defined.

(** What rounding a tie upwards means: the result is within one half of
    the argument, and one half above it is excluded. *)
Lemma round_half_up_nearest (q : Q) :
  (q - (1 # 2) < inject_Z (round_half_up q) <= q + (1 # 2))%Q.
Proof.
  rewrite <- JSNumberFacts.floor_plus_half.
  split.
  - pose proof (Qlt_floor (q + (1 # 2))) as H.
    rewrite inject_Z_plus in H. simpl (inject_Z 1) in H.
    apply Qlt_minus_iff. apply Qlt_minus_iff in H.
    setoid_replace (inject_Z (Qfloor (q + (1 # 2))) + - (q - (1 # 2)))%Q
      with (inject_Z (Qfloor (q + (1 # 2))) + 1 + - (q + (1 # 2)))%Q by ring.
    exact H.
  - apply Qfloor_le.
Qed.

(** C4. The statistics of the empty list are 0, 0 and 0, and no division is
    evaluated for them; any division that is evaluated has a positive
    divisor; a filter that keeps nothing renders these statistics. *)
Theorem C4_empty_view :
  Stats.renderStats [] = empty_stats /\
  snd (Stats.avgScore []) = [] /\
  (forall l e, In e (snd (Stats.avgScore l)) ->
               exists n : Z, 0 < n /\ Stats.divisor e = of_Z n) /\
  (forall d, filteredStocks (fst (Dashboard.applyFilters d)) = [] ->
             snd (Dashboard.applyFilters d) = empty_stats) /\
  (forall d, cmap fst (api_view d) = Ok [] ->
             cmap snd (api_view d) = Ok empty_stats).
Proof.
  repeat split.
  - exact StatsFacts.avgScore_divisions.
  - intros d H. unfold Dashboard.applyFilters, Dashboard.render in *.
    cbn [fst snd filteredStocks set_filteredStocks] in *. now rewrite H.
  - intros d. unfold api_view, cmap.
    destruct (ApiDashboard.applyFilters d) as [[d' st] |] eqn:Happly;
      [| discriminate].
    apply ApiDashboardFacts.api_applyFilters_frame in Happly.
    destruct Happly as (_ & _ & _ & _ & ->).
    unfold view. cbn [bind fst snd].
    intros H. injection H as ->. reflexivity.
Qed.

Lemma C4_empty_view_witness :
  let d := set_currentRegion sample_dashboard "us" in
  filteredStocks (fst (Dashboard.applyFilters d)) = [] /\
  snd (Dashboard.applyFilters d) = empty_stats /\
  In {| Stats.dividend := of_Z 82; Stats.divisor := of_Z 1 |}
     (snd (Stats.avgScore [bare "AAPL" "US" (Some 82)])) /\
  (exists n : Z, 0 < n /\ of_Z 1 = of_Z n) /\
  cmap fst (api_view d) = Ok [] /\
  cmap snd (api_view d) = Ok empty_stats.
Proof.
  intros d.
  destruct C4_empty_view as (_ & _ & Hdiv & Hdash & Hapi).
  assert (Hin : In {| Stats.dividend := of_Z 82; Stats.divisor := of_Z 1 |}
                   (snd (Stats.avgScore [bare "AAPL" "US" (Some 82)]))).
  { left. reflexivity. }
  split; [reflexivity |].
  split; [exact (Hdash d eq_refl) |].
  split; [exact Hin |].
  split; [exact (Hdiv _ _ Hin) |].
  split; [reflexivity | exact (Hapi d eq_refl)].
Defined.

(** C8, as the specification has it, fails: of the scores 50 and 1000 the
    first lies in [[0, 100]], and the average is 525. *)
Lemma C8_one_score_in_range_refuted :
  let l := [bare "A" "US" (Some 50); bare "B" "US" (Some 1000)] in
  ~ (Exists score_in_range l -> in_range (avg_score (Stats.renderStats l))).
Proof.
  intros l Hclaim.
  assert (Hsome : Exists score_in_range l).
  { left. exists 50. split; [reflexivity | lia]. }
  destruct (Hclaim Hsome) as [z [Hz Hrange]].
  change (of_Z 525 = of_Z z) in Hz.
  apply JSNumberFacts.of_Z_inj in Hz. lia.
Qed.

Lemma scores_in_range (l : list stock) :
  Forall score_in_range l ->
  exists scores,
    map confidence_score l = map Some scores /\
    0 <= total scores <= 100 * Z.of_nat (List.length l).
Proof.
  induction 1 as [| s l [z [Hz Hrange]] _ [scores [Hmap Htotal]]].
  - exists []. split; [reflexivity | simpl; lia].
  - exists (z :: scores). split.
    + simpl. now rewrite Hz, Hmap.
    + unfold total in *. cbn [fold_right List.length]. lia.
Qed.

(** C8. The count of high-confidence records never exceeds the count of
    records; and when every record of the list carries a score of
    [[0, 100]], the average is an integer of [[0, 100]]. *)
Theorem C8_statistics_bounds (l : list stock) :
  (high_confidence (Stats.renderStats l)
   <= total_stocks (Stats.renderStats l))%nat /\
  (Forall score_in_range l -> in_range (avg_score (Stats.renderStats l))).
Proof.
  split; [apply StatsFacts.high_confidence_le_total |].
  intros Hall.
  destruct l as [| s l].
  - exists 0. split; [reflexivity | lia].
  - destruct (scores_in_range (s :: l) Hall) as [scores [Hmap Htotal]].
    pose proof (StatsFacts.avg_score_present_Z (s :: l) scores
                  ltac:(discriminate) Hmap) as Havg.
    cbv zeta in Havg. rewrite Havg.
    set (n := Z.of_nat (List.length (s :: l))) in *.
    assert (Hn : 0 < n) by (subst n; cbn [List.length]; lia).
    eexists. split; [reflexivity |]. split.
    + apply Z.div_pos; lia.
    + apply Z.lt_succ_r. apply Z.div_lt_upper_bound; lia.
Qed.

Lemma C8_statistics_bounds_witness :
  let l := ApiDashboard.SAMPLE_DATA_stocks in
  Forall score_in_range l /\
  in_range (avg_score (Stats.renderStats l)).
Proof.
  intros l.
  assert (Hall : Forall score_in_range l).
  { repeat (apply Forall_cons || apply Forall_nil);
      eexists; (split; [reflexivity | lia]). }
  split; [exact Hall | exact (proj2 (C8_statistics_bounds l) Hall)].
Defined.

(** ** Loading *)

(** C5. The specification has every failed load, an empty payload among
    them, replaced by the sample records.  The variant that fetches
    [/api/stocks] takes the response as it comes: an empty array becomes the
    stock list, the sample records are not used and no banner is shown. *)
Theorem C5_empty_array_not_replaced :
  ApiDashboard.loadData (Response true (Parsed (ApiDashboard.JsonArray [])))
                        constructed
  = Ok (Records {| stocks := []; filteredStocks := [];
                   currentRegion := "all"; searchTerm := "" |} false).
Proof.
  reflexivity.
Qed.

(** A response that cannot be spread escapes the [try] block of the same
    variant. *)
Lemma api_load_not_iterable :
  ApiDashboard.loadData (Response true (Parsed ApiDashboard.NotIterable))
                        constructed
  = Throw (TypeError "this.stocks is not iterable").
Proof.
  reflexivity.
Qed.

(** * Further properties of the scripts *)

(** ** Substrings *)

Module SubstringFacts.
Import JSString JSStringFacts.

Lemma append_assoc (a b c : string) : (a ++ b) ++ c = a ++ (b ++ c).
Proof.
  induction a as [| x a IH]; simpl; [reflexivity | now rewrite IH].
Qed.

Lemma toLowerCase_append (a b : string) :
  toLowerCase (a ++ b) = toLowerCase a ++ toLowerCase b.
Proof.
  induction a as [| x a IH]; simpl; [reflexivity | now rewrite IH].
Qed.

Lemma lower_char_idempotent (c : ascii) :
  lower_char (lower_char c) = lower_char c.
Proof.
  unfold lower_char at 1. now rewrite lower_char_not_upper.
Qed.

Lemma toLowerCase_idempotent (s : string) :
  toLowerCase (toLowerCase s) = toLowerCase s.
Proof.
  induction s as [| c s IH]; simpl; [reflexivity |].
  now rewrite lower_char_idempotent, IH.
Qed.

Lemma startsWith_iff (s t : string) :
  startsWith s t = true <-> exists b, s = t ++ b.
Proof.
  revert s. induction t as [| c t IH]; intros s; simpl.
  - split; [intros _; now exists s | intros _; now destruct s].
  - destruct s as [| x s].
    + split; [discriminate | intros [b Hb]; discriminate].
    + simpl. rewrite andb_true_iff, Ascii.eqb_eq, IH. split.
      * intros [-> [b ->]]. now exists b.
      * intros [b Hb]. injection Hb as -> ->. split; [reflexivity | now exists b].
Qed.

Lemma includes_unfold (s t : string) :
  includes s t =
  startsWith s t ||
  match s with
  | EmptyString => false
  | String _ s' => includes s' t
  end.
Proof.
  now destruct s.
Qed.

(** [includes] is the substring test: [t] with something before it and
    something after it. *)
Lemma includes_iff (s t : string) :
  includes s t = true <-> exists a b, s = a ++ t ++ b.
Proof.
  split.
  - induction s as [| x s IH]; rewrite includes_unfold, orb_true_iff.
    + intros [H | H]; [| discriminate].
      apply startsWith_iff in H as [b ->]. now exists "", b.
    + intros [H | H].
      * apply startsWith_iff in H as [b Hb]. now exists "", b.
      * destruct (IH H) as [a [b ->]]. now exists (String x a), b.
  - intros [a [b ->]].
    induction a as [| x a IH]; rewrite includes_unfold, orb_true_iff.
    + left. apply startsWith_iff. now exists b.
    + right. exact IH.
Qed.

(** A substring of a substring is a substring. *)
Lemma includes_trans (s t u : string) :
  includes s t = true -> includes t u = true -> includes s u = true.
Proof.
  rewrite !includes_iff.
  intros [a [b ->]] [a' [b' ->]].
  exists (a ++ a'), (b' ++ b).
  now rewrite !append_assoc.
Qed.

End SubstringFacts.

(** ** Narrowing the view *)

Lemma filter_subsequence_mono {A : Type} (f g : A -> bool) (l : list A) :
  (forall x, In x l -> f x = true -> g x = true) ->
  subsequence (filter f l) (filter g l).
Proof.
  induction l as [| x l IH]; intros Himp; simpl.
  - constructor.
  - assert (IH' : subsequence (filter f l) (filter g l)).
    { apply IH. intros y Hy. apply Himp. now right. }
    destruct (f x) eqn:Hf.
    + rewrite (Himp x (or_introl eq_refl) Hf). now constructor.
    + destruct (g x); [now constructor | exact IH'].
Qed.

Lemma filter_twice {A : Type} (f g : A -> bool) (l : list A) :
  filter f (filter g l) = filter (fun x => g x && f x) l.
Proof.
  induction l as [| x l IH]; simpl; [reflexivity |].
  destruct (g x); simpl; [destruct (f x) |]; now rewrite IH.
Qed.

Lemma filter_agree {A : Type} (f g : A -> bool) (l : list A) :
  (forall x, In x l -> f x = g x) -> filter f l = filter g l.
Proof.
  induction l as [| x l IH]; intros H; simpl; [reflexivity |].
  rewrite (H x (or_introl eq_refl)), IH; [reflexivity |].
  intros y Hy. apply H. now right.
Qed.

Module NarrowingFacts.
Import JSString JSStringFacts SubstringFacts Dashboard.

(** A record found with a term is found with every substring of it. *)
Lemma searchMatch_substring (d : dashboard) (t t' : string) (s : stock) :
  includes t' t = true ->
  searchMatch (set_searchTerm d t') s = true ->
  searchMatch (set_searchTerm d t) s = true.
Proof.
  intros Hsub. unfold searchMatch. cbn [searchTerm set_searchTerm].
  destruct (truthy t) eqn:Ht; [| reflexivity].
  assert (Ht' : truthy t' = true).
  { destruct t' as [| c t']; [| reflexivity].
    rewrite includes_empty_l in Hsub by exact Ht. discriminate. }
  rewrite Ht'. simpl. rewrite !orb_true_iff.
  intros [Hticker | Hname].
  - left. exact (includes_trans _ _ _ Hticker Hsub).
  - right. destruct (company_name s) as [n |]; [| discriminate].
    apply andb_true_iff in Hname as [Hn Hinc].
    rewrite Hn. exact (includes_trans _ _ _ Hinc Hsub).
Qed.

End NarrowingFacts.

(** X1. Refining the search narrows the view: when the text typed now,
    lower-cased, includes the text typed before, the records shown now are
    a subsequence of the records shown before. *)
Theorem search_refinement_narrows (d : dashboard) (before now : string) :
  includes (toLowerCase now) (toLowerCase before) = true ->
  subsequence (filteredStocks (fst (Dashboard.onSearchInput now d)))
              (filteredStocks (fst (Dashboard.onSearchInput before d))).
Proof.
  intros Hsub.
  unfold Dashboard.onSearchInput, Dashboard.applyFilters.
  cbn [fst filteredStocks set_filteredStocks stocks set_searchTerm].
  apply filter_subsequence_mono.
  intros s _ Hkept.
  apply andb_true_iff in Hkept as [Hregion Hsearch].
  apply andb_true_iff. split; [exact Hregion |].
  exact (NarrowingFacts.searchMatch_substring d _ _ s Hsub Hsearch).
Qed.

Lemma search_refinement_narrows_witness :
  includes (toLowerCase "TSco") (toLowerCase "s") = true /\
  subsequence
    (filteredStocks (fst (Dashboard.onSearchInput "TSco" sample_dashboard)))
    (filteredStocks (fst (Dashboard.onSearchInput "s" sample_dashboard))).
Proof.
  split; [reflexivity |].
  exact (search_refinement_narrows sample_dashboard "s" "TSco" eq_refl).
Defined.

(** X2. The search box is case-insensitive on both sides, on ASCII text:
    a record whose ticker or [company_name] contains a text is shown, within
    the selected region, whenever that text is typed in any mix of cases,
    the ticker or name and the typed text being made of ASCII characters. *)
Theorem typed_text_found_in_any_case
        (d : dashboard) (s : stock) (value a t b : string) :
  In s (stocks d) ->
  Dashboard.regionMatch d s = true ->
  ticker s = a ++ t ++ b \/ company_name s = Some (a ++ t ++ b) ->
  SessionWords.ascii_only (a ++ t ++ b) = true ->
  SessionWords.ascii_only value = true ->
  toLowerCase value = toLowerCase t ->
  In s (filteredStocks (fst (Dashboard.onSearchInput value d))).
Proof.
  intros Hin Hregion Hfield _ _ Hcase.
  unfold Dashboard.onSearchInput, Dashboard.applyFilters.
  cbn [fst filteredStocks set_filteredStocks stocks set_searchTerm].
  apply filter_In. split; [exact Hin |].
  apply andb_true_iff. split; [exact Hregion |].
  unfold Dashboard.searchMatch. cbn [searchTerm set_searchTerm].
  destruct (truthy (toLowerCase value)) eqn:Hterm; [| reflexivity].
  simpl. apply orb_true_iff.
  assert (Hinc : includes (toLowerCase (a ++ t ++ b)) (toLowerCase value)
                 = true).
  { apply SubstringFacts.includes_iff.
    exists (toLowerCase a), (toLowerCase b).
    now rewrite !SubstringFacts.toLowerCase_append, Hcase. }
  destruct Hfield as [Hticker | Hname].
  - left. now rewrite Hticker.
  - right. rewrite Hname, Hinc, andb_true_r.
    destruct (a ++ t ++ b) as [| c rest] eqn:Hn; [| reflexivity].
    simpl in Hinc. rewrite orb_false_r in Hinc.
    destruct (toLowerCase value); [discriminate Hterm | discriminate Hinc].
Qed.

Lemma typed_text_found_in_any_case_witness :
  let s := {| ticker := "TSCO.L"; name := Some "Tesco PLC";
              company_name := None; region := "UK";
              confidence_score := Some 68 |} in
  In s (stocks sample_dashboard) /\
  Dashboard.regionMatch sample_dashboard s = true /\
  SessionWords.ascii_only ("T" ++ "SCO" ++ ".L") = true /\
  SessionWords.ascii_only "sCo" = true /\
  toLowerCase "sCo" = toLowerCase "SCO" /\
  In s (filteredStocks (fst (Dashboard.onSearchInput "sCo" sample_dashboard))).
Proof.
  intros s.
  assert (Hin : In s (stocks sample_dashboard)).
  { right. right. left. reflexivity. }
  split; [exact Hin |].
  split; [reflexivity |].
  split; [reflexivity |].
  split; [reflexivity |].
  split; [reflexivity |].
  exact (typed_text_found_in_any_case sample_dashboard s "sCo" "T" "SCO" ".L"
           Hin eq_refl (or_introl eq_refl) eq_refl eq_refl eq_refl).
Defined.

(** X3. A region button shows, of the records shown under "all" with the
    same term, exactly those of its region, in the same order. *)
Theorem region_click_selects (d : dashboard) (r : string) :
  r <> "all" ->
  filteredStocks (fst (Dashboard.onRegionClick r d))
  = filter (fun s => String.eqb (region s) r)
           (filteredStocks (fst (Dashboard.onRegionClick "all" d))).
Proof.
  intros Hr.
  unfold Dashboard.onRegionClick, Dashboard.applyFilters.
  cbn [fst filteredStocks set_filteredStocks stocks set_currentRegion].
  rewrite filter_twice. apply filter_agree. intros s _.
  unfold Dashboard.regionMatch, Dashboard.searchMatch.
  cbn [currentRegion searchTerm set_currentRegion].
  apply String.eqb_neq in Hr. rewrite Hr. simpl.
  apply andb_comm.
Qed.

Lemma region_click_selects_witness :
  "UK" <> "all" /\
  filteredStocks (fst (Dashboard.onRegionClick "UK" sample_dashboard))
  = filter (fun s => String.eqb (region s) "UK")
           (filteredStocks (fst (Dashboard.onRegionClick "all" sample_dashboard))).
Proof.
  split; [discriminate |].
  apply (region_click_selects sample_dashboard "UK"). discriminate.
Defined.

(** ** Sessions of [dashboard.js] *)

Module SessionFacts.
Import JSString JSStringFacts SessionWords Session.

(** [applyFilters] reads the stock list, the region and the term, and
    overwrites the filtered list. *)
Lemma applyFilters_ext (d1 d2 : dashboard) :
  stocks d1 = stocks d2 ->
  currentRegion d1 = currentRegion d2 ->
  searchTerm d1 = searchTerm d2 ->
  fst (Dashboard.applyFilters d1) = fst (Dashboard.applyFilters d2).
Proof.
  destruct d1, d2. simpl. intros -> -> ->. reflexivity.
Qed.

(** One event, as a call of [applyFilters]. *)
Lemma handle_as_apply (e : event) (d : dashboard) :
  handle e d
  = fst (Dashboard.applyFilters
           (set_searchTerm
              (set_currentRegion d (last_region [e] (currentRegion d)))
              (last_term [e] (searchTerm d)))).
Proof.
  destruct e; reflexivity.
Qed.

Lemma handle_stocks (e : event) (d : dashboard) :
  stocks (handle e d) = stocks d.
Proof.
  destruct e; reflexivity.
Qed.

Lemma handle_consistent (e : event) (d : dashboard) :
  consistent (handle e d).
Proof.
  destruct e; reflexivity.
Qed.

Lemma handle_term_lowered (e : event) (d : dashboard) :
  has_upper (searchTerm d) = false ->
  has_upper (searchTerm (handle e d)) = false.
Proof.
  destruct e; simpl; [trivial | intros _; apply toLowerCase_no_upper].
Qed.

(** The records that [loadData] leaves are some list, stored and shown. *)
Lemma loaded_records
      (r : fetched Dashboard.payload) (d d' : dashboard) (warned : bool) :
  Dashboard.loadData r d = Ok (Records d' warned) ->
  exists l, d' = set_filteredStocks (set_stocks d l) l.
Proof.
  unfold Dashboard.loadData.
  destruct (Dashboard.tryLoad r) as [v | x].
  - destruct v as [| | b | q | s | l | p]; try discriminate.
    intros H. injection H as <- _. now exists l.
  - intros H. injection H as <- _. now eexists.
Qed.

Lemma loaded_consistent
      (r : fetched Dashboard.payload) (d0 : dashboard) (warned : bool) :
  Dashboard.loadData r constructed = Ok (Records d0 warned) ->
  consistent d0 /\ searchTerm d0 = "".
Proof.
  intros H. apply loaded_records in H as [l ->].
  split; [| reflexivity].
  unfold consistent. cbn [filteredStocks stocks set_filteredStocks set_stocks].
  symmetry. apply filter_all. intros s _. reflexivity.
Qed.

End SessionFacts.

(** X4. After any non-empty sequence of clicks and inputs the dashboard is
    the one that [applyFilters] computes from the stock list, the region of
    the last click and the lower-cased text of the last input: neither the
    order of the events before nor the list shown before matters. *)
Theorem session_last_events_decide (events : list event) (d : dashboard) :
  events <> [] ->
  Session.run events d
  = fst (Dashboard.applyFilters
           (set_searchTerm
              (set_currentRegion
                 d (SessionWords.last_region events (currentRegion d)))
              (SessionWords.last_term events (searchTerm d)))).
Proof.
  revert d. induction events as [| e events IH]; intros d Hne.
  - now elim Hne.
  - destruct events as [| e' events].
    + apply SessionFacts.handle_as_apply.
    + change (Session.run (e :: e' :: events) d)
        with (Session.run (e' :: events) (Session.handle e d)).
      rewrite IH by discriminate.
      apply SessionFacts.applyFilters_ext; destruct e; reflexivity.
Qed.

Lemma session_last_events_decide_witness :
  let events := [SearchInput "Air"; RegionClick "UK"; SearchInput "TS";
                 RegionClick "all"] in
  events <> [] /\
  Session.run events sample_dashboard
  = fst (Dashboard.applyFilters
           (set_searchTerm (set_currentRegion sample_dashboard "all") "ts")).
Proof.
  intros events. split; [discriminate |].
  apply (session_last_events_decide events sample_dashboard). discriminate.
Defined.

(** X5. When [loadData] has left a list of records, then whatever the
    user does afterwards, the stock list is the loaded one and is not empty,
    the stored term has no upper-case letter, and the list shown is the one
    that the stored region and term select from the stock list. *)
Theorem session_invariant
        (r : fetched Dashboard.payload) (d0 : dashboard) (warned : bool)
        (events : list event) :
  Dashboard.loadData r constructed = Ok (Records d0 warned) ->
  let d := Session.run events d0 in
  stocks d = stocks d0 /\
  stocks d <> [] /\
  has_upper (searchTerm d) = false /\
  SessionWords.consistent d.
Proof.
  intros Hload. cbv zeta.
  assert (Hstart : has_upper (searchTerm d0) = false /\
                   SessionWords.consistent d0).
  { destruct (SessionFacts.loaded_consistent r d0 warned Hload) as [Hc Ht].
    rewrite Ht. now split. }
  assert (Hne : stocks d0 <> []).
  { exact (proj1 (LoadFacts.dashboard_load_never_empty
                    r constructed d0 warned Hload)). }
  clear Hload. revert d0 Hstart Hne.
  induction events as [| e events IH]; intros d0 [Hterm Hcons] Hne.
  - now repeat split.
  - change (Session.run (e :: events) d0)
      with (Session.run events (Session.handle e d0)).
    rewrite <- (SessionFacts.handle_stocks e d0) in *.
    apply IH; [split |]; try exact Hne.
    + now apply SessionFacts.handle_term_lowered.
    + apply SessionFacts.handle_consistent.
Qed.

(** A payload with two records, then a search and a click. *)
Lemma session_invariant_witness :
  let l := [bare "AAPL" "US" (Some 82); bare "TSCO.L" "UK" (Some 68)] in
  let r := Response true
             (Parsed (Dashboard.JsonObject (Dashboard.Array l))) in
  let d0 := {| stocks := l; filteredStocks := l;
               currentRegion := "all"; searchTerm := "" |} in
  let d := Session.run [SearchInput "TS"; RegionClick "UK"] d0 in
  Dashboard.loadData r constructed = Ok (Records d0 false) /\
  stocks d = l /\
  filteredStocks d = [bare "TSCO.L" "UK" (Some 68)] /\
  SessionWords.consistent d.
Proof.
  intros l r d0 d.
  assert (Hload : Dashboard.loadData r constructed = Ok (Records d0 false))
    by reflexivity.
  destruct (session_invariant r d0 false
              [SearchInput "TS"; RegionClick "UK"] Hload)
    as (Hstocks & _ & _ & Hcons).
  split; [exact Hload |].
  split; [exact Hstocks |].
  split; [reflexivity | exact Hcons].
Defined.

(** ** Page load *)

(** X6. [loadData] of [dashboard.js] has four outcomes.  On a load failure
    the sample record is loaded and the banner shown.  A non-empty array of
    records is loaded as it is, without banner; in both cases all of the list
    is shown and the region and the term are left alone.  A non-empty string
    is stored as the stock list, without banner.  An object whose [length]
    is greater than 0 passes the test and makes the spread after the [try]
    statement throw: no sample data, no banner. *)
Theorem dashboard_load_cases (r : fetched Dashboard.payload) (d : dashboard) :
  (load_failure r /\
   Dashboard.loadData r d
   = Ok (Records
           (set_filteredStocks (set_stocks d Dashboard.SAMPLE_DATA_stocks)
                               Dashboard.SAMPLE_DATA_stocks) true))
  \/
  (exists l,
      l <> [] /\
      r = Response true (Parsed (Dashboard.JsonObject (Dashboard.Array l))) /\
      Dashboard.loadData r d
      = Ok (Records (set_filteredStocks (set_stocks d l) l) false))
  \/
  (exists s,
      s <> "" /\
      r = Response true (Parsed (Dashboard.JsonObject (Dashboard.Text s))) /\
      Dashboard.loadData r d = Ok (Characters s false))
  \/
  (r = Response true (Parsed (Dashboard.JsonObject (Dashboard.Object true))) /\
   Dashboard.loadData r d = Throw (TypeError "this.stocks is not iterable")).
Proof.
  destruct r as [| [] [| [| v]]];
    try (left; split; [constructor | reflexivity]).
  destruct v as [| | b | q | [| c s] | [| x l] | [|]];
    try (left; split; [constructor | reflexivity]).
  - left. split; [constructor | now destruct b].
  - left. split; [constructor |].
    unfold Dashboard.loadData, Dashboard.tryLoad. cbn.
    now destruct (Qeq_bool q 0).
  - right. right. left. exists (String c s). now repeat split.
  - right. left. exists (x :: l). now repeat split.
  - right. right. right. now split.
Qed.

(** X7. [loadData] of [dashboard.js] shows the banner exactly on a load
    failure, that is when its [try] block throws; it shows none when it
    stores an array or a string, nor when the spread throws. *)
Theorem dashboard_banner_iff_failure
        (r : fetched Dashboard.payload) (d : dashboard) :
  SessionWords.banner (Dashboard.loadData r d) = true <-> load_failure r.
Proof.
  split.
  - destruct r as [| [] [| [| v]]]; try (intros _; constructor).
    destruct v as [| | b | q | [| c s] | [| x l] | [|]];
      try (intros _; constructor); try discriminate.
  - intros H.
    now rewrite (LoadFacts.dashboard_load_failure r d H).
Qed.

Lemma dashboard_banner_iff_failure_witness :
  SessionWords.banner
    (Dashboard.loadData
       (Response true (Parsed (Dashboard.JsonObject (Dashboard.Number 5))))
       sample_dashboard) = true
  /\ load_failure
       (Response true (Parsed (Dashboard.JsonObject (Dashboard.Number 5)))).
Proof.
  split; [reflexivity |].
  exact (proj1 (dashboard_banner_iff_failure
                  (Response true
                     (Parsed (Dashboard.JsonObject (Dashboard.Number 5))))
                  sample_dashboard) eq_refl).
Defined.

(** X8. [loadData] of the variant has four outcomes.  A failed fetch loads
    the four sample records and shows the banner.  An array in the response
    is loaded as it is, empty or not, without banner.  A string in the
    response is stored as the stock list, empty or not, without banner.
    A response that is [null], a number, a boolean or an object makes
    [loadData] throw, outside its [try] block. *)
Theorem api_load_cases (r : fetched ApiDashboard.payload) (d : dashboard) :
  (SessionWords.api_fetch_failed r /\
   ApiDashboard.loadData r d
   = Ok (Records
           (set_filteredStocks (set_stocks d ApiDashboard.SAMPLE_DATA_stocks)
                               ApiDashboard.SAMPLE_DATA_stocks) true))
  \/
  (exists l,
      r = Response true (Parsed (ApiDashboard.JsonArray l)) /\
      ApiDashboard.loadData r d
      = Ok (Records (set_filteredStocks (set_stocks d l) l) false))
  \/
  (exists s,
      r = Response true (Parsed (ApiDashboard.JsonString s)) /\
      ApiDashboard.loadData r d = Ok (Characters s false))
  \/
  (r = Response true (Parsed ApiDashboard.NotIterable) /\
   ApiDashboard.loadData r d
   = Throw (TypeError "this.stocks is not iterable")).
Proof.
  unfold SessionWords.api_fetch_failed.
  destruct r as [| [] content].
  - left. split; [now left | reflexivity].
  - destruct content as [| [l | s |]].
    + left. split; [now right; right | reflexivity].
    + right. left. now exists l.
    + right. right. left. now exists s.
    + right. right. right. now split.
  - left. split; [right; left; now exists content |].
    now destruct content.
Qed.

(** ** Statistics panel and grid *)

Module GridFacts.
Import JSNumber Grid.

(** The card class is "score-high" exactly for the records that the
    statistics count as high confidence. *)
Lemma score_high_iff_counted (s : stock) :
  String.eqb (getScoreClass (confidence_score s)) "score-high"
  = Stats.isHighConfidence s.
Proof.
  unfold getScoreClass, Stats.isHighConfidence.
  destruct (ge (of_property (confidence_score s)) (of_Z 70));
    [reflexivity |].
  now destruct (ge (of_property (confidence_score s)) (of_Z 50)).
Qed.

Lemma count_score_high (l : list stock) :
  List.length
    (filter (fun c => String.eqb (score_class c) "score-high") (map cardOf l))
  = List.length (filter Stats.isHighConfidence l).
Proof.
  induction l as [| s l IH]; simpl; [reflexivity |].
  rewrite score_high_iff_counted.
  destruct (Stats.isHighConfidence s); simpl; now rewrite IH.
Qed.

End GridFacts.

(** X9. The grid and the statistics panel of [dashboard.js] agree: the
    "no stocks" message is shown exactly when the total is 0; otherwise there
    is one card per counted record, in the order of the list, and the cards
    of class "score-high" are as many as the high-confidence count. *)
Theorem grid_agrees_with_stats (l : list stock) :
  match Grid.renderStockGrid l with
  | Grid.NoResults => total_stocks (Stats.renderStats l) = 0%nat
  | Grid.Cards cards =>
      total_stocks (Stats.renderStats l) <> 0%nat /\
      List.length cards = total_stocks (Stats.renderStats l) /\
      map Grid.card_ticker cards = map ticker l /\
      List.length
        (filter (fun c => String.eqb (Grid.score_class c) "score-high") cards)
      = high_confidence (Stats.renderStats l)
  end.
Proof.
  unfold Grid.renderStockGrid.
  destruct l as [| s l]; [reflexivity |].
  cbn [List.length Nat.eqb].
  split; [discriminate |].
  split; [apply length_map |].
  split; [now rewrite map_map |].
  apply GridFacts.count_score_high.
Qed.



(** ** The average between the scores *)

Module BoundsFacts.
Import JSNumber SessionWords.

Lemma total_between (lo hi : Z) (l : list stock) :
  scores_between lo hi l ->
  exists scores,
    map confidence_score l = map Some scores /\
    lo * Z.of_nat (List.length l) <= total scores
    <= hi * Z.of_nat (List.length l).
Proof.
  induction 1 as [| s l [z [Hz Hrange]] _ [scores [Hmap Htotal]]].
  - exists []. split; [reflexivity | simpl; lia].
  - exists (z :: scores). split.
    + simpl. now rewrite Hz, Hmap.
    + unfold total in *. cbn [fold_right List.length]. lia.
Qed.

End BoundsFacts.

(** X11. The average shown lies between the scores: when every record of a
    non-empty list carries a score between [lo] and [hi], these being
    integers of [[0, 100]], so does the average, which is then an integer. *)
Theorem average_between_scores (lo hi : Z) (l : list stock) :
  l <> [] ->
  0 <= lo ->
  hi <= 100 ->
  SessionWords.scores_between lo hi l ->
  exists z, avg_score (Stats.renderStats l) = of_Z z /\ lo <= z <= hi.
Proof.
  intros Hne _ _ Hall.
  destruct (BoundsFacts.total_between lo hi l Hall) as [scores [Hmap Htotal]].
  pose proof (StatsFacts.avg_score_present_Z l scores Hne Hmap) as Havg.
  cbv zeta in Havg. rewrite Havg.
  set (n := Z.of_nat (List.length l)) in *.
  assert (Hn : 0 < n).
  { subst n. destruct l; [now elim Hne | cbn [List.length]; lia]. }
  eexists. split; [reflexivity |]. split.
  - apply Z.div_le_lower_bound; lia.
  - apply Z.lt_succ_r. apply Z.div_lt_upper_bound; lia.
Qed.

Lemma average_between_scores_witness :
  let l := ApiDashboard.SAMPLE_DATA_stocks in
  l <> [] /\
  0 <= 68 /\
  82 <= 100 /\
  SessionWords.scores_between 68 82 l /\
  exists z, avg_score (Stats.renderStats l) = of_Z z /\ 68 <= z <= 82.
Proof.
  intros l.
  assert (Hne : l <> []) by discriminate.
  assert (Hall : SessionWords.scores_between 68 82 l).
  { repeat (apply Forall_cons || apply Forall_nil);
      eexists; (split; [reflexivity | lia]). }
  assert (Hlo : 0 <= 68) by lia.
  assert (Hhi : 82 <= 100) by lia.
  split; [exact Hne | split; [exact Hlo | split; [exact Hhi |]]].
  split; [exact Hall |].
  exact (average_between_scores 68 82 l Hne Hlo Hhi Hall).
Defined.

(** ** When the variant throws *)

Module ThrowFacts.
Import JSString JSStringFacts SessionWords ApiDashboard.

(** [filter] throws exactly when the callback throws on some element. *)
Lemma filterM_throws_iff {A : Type} (f : A -> completion bool) (l : list A) :
  (exists x, filterM f l = Throw x) <->
  Exists (fun a => exists x, f a = Throw x) l.
Proof.
  induction l as [| a l IH]; simpl.
  - split; [intros [x Hx]; discriminate | intros H; inversion H].
  - destruct (f a) as [keep | x] eqn:Hfa; simpl.
    + split.
      * intros [x Hx]. apply Exists_cons_tl. apply IH.
        destruct (filterM f l) as [kept | y]; [discriminate | now exists y].
      * intros H. inversion H as [? ? [x Hx] | ? ? Htl]; subst.
        -- rewrite Hfa in Hx. discriminate.
        -- apply IH in Htl as [x Hx]. rewrite Hx. now exists x.
    + split; [| intros _; now exists x].
      intros _. apply Exists_cons_hd. now exists x.
Qed.

Lemma keeps_throws_iff (d : dashboard) (s : stock) :
  (exists x, keeps d s = Throw x) <->
  searchTerm d <> "" /\ breaks_search (searchTerm d) s.
Proof.
  unfold keeps, searchMatch, breaks_search.
  rewrite <- truthy_nonempty.
  destruct (truthy (searchTerm d)); simpl.
  - destruct (includes (toLowerCase (ticker s)) (searchTerm d)); simpl.
    + split; [intros [x Hx]; discriminate | intros [_ [_ H]]; discriminate].
    + destruct (name s) as [n |]; simpl.
      * split; [intros [x Hx]; discriminate | intros [_ [H _]]; discriminate].
      * split; [now repeat split | intros _; now eexists].
  - split; [intros [x Hx]; discriminate | intros [H _]; discriminate].
Qed.

End ThrowFacts.

(** X12. The [filter] call of [applyFilters] in the variant throws exactly
    when a term is set and the stock list holds a record without a name whose
    ticker does not include the term, whatever the region of that record and
    the selected region; [applyFilters] then throws with it. *)
Theorem api_filter_throws_iff (d : dashboard) :
  ((exists x, filterM (ApiDashboard.keeps d) (stocks d) = Throw x) <->
   searchTerm d <> "" /\
   Exists (SessionWords.breaks_search (searchTerm d)) (stocks d)) /\
  (forall x, filterM (ApiDashboard.keeps d) (stocks d) = Throw x ->
             ApiDashboard.applyFilters d = Throw x).
Proof.
  split.
  - rewrite ThrowFacts.filterM_throws_iff, !Exists_exists.
    split.
    + intros [s [Hin Hthrow]].
      apply ThrowFacts.keeps_throws_iff in Hthrow as [Hterm Hbreak].
      split; [exact Hterm | now exists s].
    + intros [Hterm [s [Hin Hbreak]]].
      exists s. split; [exact Hin |].
      apply ThrowFacts.keeps_throws_iff. now split.
  - intros x Hx. unfold ApiDashboard.applyFilters. now rewrite Hx.
Qed.

(** A nameless UK record makes the search for "xyz" throw although the
    region "US" is selected. *)
Lemma api_filter_throws_iff_witness :
  let d := {| stocks := [bare "AAPL" "US" None; bare "TSCO.L" "UK" None];
              filteredStocks := [];
              currentRegion := "US"; searchTerm := "xyz" |} in
  (searchTerm d <> "" /\
   Exists (SessionWords.breaks_search (searchTerm d)) (stocks d)) /\
  exists x, ApiDashboard.applyFilters d = Throw x.
Proof.
  intros d.
  assert (H : searchTerm d <> "" /\
              Exists (SessionWords.breaks_search (searchTerm d)) (stocks d)).
  { split; [discriminate |]. apply Exists_cons_hd. now split. }
  split; [exact H |].
  destruct (api_filter_throws_iff d) as [Hiff Happly].
  destruct (proj2 Hiff H) as [x Hx].
  exists x. exact (Happly x Hx).
Defined.

(** X13. In the variant the stock list survives every sequence of clicks
    and inputs, also those whose listener throws, and the list shown stays a
    subsequence of the stock list. *)
Theorem api_session_keeps_stocks (events : list event) (d : dashboard) :
  subsequence (filteredStocks d) (stocks d) ->
  stocks (ApiSession.run events d) = stocks d /\
  subsequence (filteredStocks (ApiSession.run events d)) (stocks d).
Proof.
  revert d. induction events as [| e events IH]; intros d Hsub.
  - now split.
  - change (ApiSession.run (e :: events) d)
      with (ApiSession.run events (fst (ApiSession.handle e d))).
    assert (Hstep : stocks (fst (ApiSession.handle e d)) = stocks d /\
                    subsequence (filteredStocks (fst (ApiSession.handle e d)))
                                (stocks d)).
    { unfold ApiSession.handle.
      set (assigned := match e with
                       | RegionClick data_region =>
                           set_currentRegion d data_region
                       | SearchInput value =>
                           set_searchTerm d (JSString.toLowerCase value)
                       end).
      assert (Hassigned : stocks assigned = stocks d /\
                          filteredStocks assigned = filteredStocks d).
      { subst assigned. now destruct e. }
      destruct Hassigned as [Hs Hf].
      destruct (ApiDashboard.applyFilters assigned) as [[d' st] |] eqn:Happly.
      - apply ApiDashboardFacts.api_applyFilters_frame in Happly.
        destruct Happly as (Hs' & _ & _ & Hsub' & _).
        cbn [fst]. rewrite Hs', Hs in *. now split.
      - cbn [fst]. rewrite Hs, Hf. now split. }
    destruct Hstep as [Hs Hsub'].
    rewrite <- Hs in Hsub' |- *.
    apply IH. exact Hsub'.
Qed.

Lemma api_session_keeps_stocks_witness :
  let d := {| stocks := [bare "AAPL" "US" None; bare "TSCO.L" "UK" None];
              filteredStocks := [bare "AAPL" "US" None];
              currentRegion := "US"; searchTerm := "" |} in
  let events := [SearchInput "xyz"; RegionClick "UK"] in
  subsequence (filteredStocks d) (stocks d) /\
  stocks (ApiSession.run events d) = stocks d /\
  subsequence (filteredStocks (ApiSession.run events d)) (stocks d).
Proof.
  intros d events.
  assert (Hsub : subsequence (filteredStocks d) (stocks d)).
  { apply subsequence_keep. apply subsequence_drop. constructor. }
  split; [exact Hsub | exact (api_session_keeps_stocks events d Hsub)].
Defined.

(** ** The two scripts side by side *)

(** X14. The two scripts filter and count alike when no term is set, and
    also when every record carries the same name under [name] and under
    [company_name]. *)
Theorem scripts_agree (d : dashboard) :
  searchTerm d = "" \/
  Forall (fun s => name s <> None /\ company_name s = name s) (stocks d) ->
  ApiDashboard.applyFilters d = Ok (Dashboard.applyFilters d).
Proof.
  intros H.
  unfold ApiDashboard.applyFilters, Dashboard.applyFilters,
    ApiDashboard.render, Dashboard.render.
  rewrite (filterM_pure (ApiDashboard.keeps d) (SessionWords.kept_by d));
    [reflexivity |].
  intros s Hin. unfold SessionWords.kept_by.
  destruct (String.eqb_spec (searchTerm d) "") as [Hterm | Hterm].
  - rewrite (ApiDashboardFacts.keeps_empty_term d s Hterm).
    rewrite (DashboardFacts.searchMatch_empty_term d s Hterm).
    now rewrite andb_true_r.
  - destruct H as [H | H]; [contradiction |].
    rewrite Forall_forall in H. destruct (H s Hin) as [Hname Hsame].
    destruct (name s) as [n |] eqn:Hn; [| now elim Hname].
    unfold ApiDashboard.keeps.
    rewrite (ApiDashboardFacts.searchMatch_named d s n Hterm Hn).
    cbn [bind]. unfold Dashboard.searchMatch, ApiDashboard.regionMatch,
      Dashboard.regionMatch.
    rewrite Hsame.
    apply JSStringFacts.truthy_nonempty in Hterm. rewrite Hterm.
    cbn [negb orb].
    destruct n as [| c n]; [| reflexivity].
    cbn [JSString.truthy andb]. cbn [JSString.toLowerCase].
    now rewrite (JSStringFacts.includes_empty_l _ Hterm).
Qed.

Lemma scripts_agree_witness :
  let d := set_currentRegion sample_dashboard "EU" in
  (searchTerm d = "" \/
   Forall (fun s => name s <> None /\ company_name s = name s) (stocks d)) /\
  ApiDashboard.applyFilters d = Ok (Dashboard.applyFilters d).
Proof.
  intros d.
  split; [now left |].
  exact (scripts_agree d (or_introl eq_refl)).
Defined.

(** X16. Narrowing never raises a count: the statistics of a subsequence
    of a list have a total and a high-confidence count that are at most
    those of the list. *)
Theorem counts_monotone (kept l : list stock) :
  subsequence kept l ->
  (total_stocks (Stats.renderStats kept)
   <= total_stocks (Stats.renderStats l))%nat /\
  (high_confidence (Stats.renderStats kept)
   <= high_confidence (Stats.renderStats l))%nat.
Proof.
  unfold Stats.renderStats. cbn [total_stocks high_confidence].
  induction 1 as [| s kept l _ [IHt IHh] | s kept l _ [IHt IHh]]; simpl.
  - split; lia.
  - destruct (Stats.isHighConfidence s); simpl; split; lia.
  - destruct (Stats.isHighConfidence s); simpl; split; lia.
Qed.

Lemma counts_monotone_witness :
  let l := ApiDashboard.SAMPLE_DATA_stocks in
  let kept := filteredStocks (fst (Dashboard.onRegionClick "US" sample_dashboard)) in
  subsequence kept l /\
  (total_stocks (Stats.renderStats kept)
   <= total_stocks (Stats.renderStats l))%nat /\
  (high_confidence (Stats.renderStats kept)
   <= high_confidence (Stats.renderStats l))%nat.
Proof.
  intros l kept.
  assert (Hsub : subsequence kept l).
  { apply (filter_subsequence
             (fun s => Dashboard.regionMatch
                         (set_currentRegion sample_dashboard "US") s &&
                       Dashboard.searchMatch
                         (set_currentRegion sample_dashboard "US") s) l). }
  split; [exact Hsub | exact (counts_monotone kept l Hsub)].
Defined.
